(** * Sourcify verification service: the Injector

    A shallow embedding of [services/verification/src/services/Injector.ts]
    and the properties of its bytecode comparison, creation-data resolution,
    candidate matching, content-address derivation and storage steps.

    Conventions of the embedding.

    - JavaScript strings are [string]s (the values at hand are hex strings,
      paths and messages, all ASCII).  A value of type "string, [null] or
      [undefined]" is a [JsString]; [truthy] is JavaScript's truthiness.
    - An [async] method is a computation in the monad [M]: it threads a
      [State] (the outside world together with the [trace] of every call that
      left the Injector: log records, network requests, file-service calls)
      and ends in [Return v] or [Throw e].  What a [throw] leaves behind in
      the state is kept, as in JavaScript.
    - Functions imported from other packages ([../utils], [web3],
      [@ethereum-sourcify/core], [multihashes]) are the fields of [Env]; the
      theorems hold for every such environment. *)

From Stdlib Require Import String Ascii List ZArith Lia Bool Arith.
From Stdlib Require Import Strings.Byte.
Import ListNotations.
Local Open Scope list_scope.
Local Open Scope string_scope.

(** ** JavaScript strings *)

Module Js.

(** [string | null | undefined]; [None] stands for both [null] and
    [undefined], which the Injector never tells apart. *)
Definition JsString := option string.

(** Truthiness of such a value: [null], [undefined] and [""] are falsy. *)
Definition truthy (v : JsString) : bool :=
  match v with
  | Some s => negb (s =? "")
  | None => false
  end.

(** [s.startsWith(p)] *)
Definition startsWith (s p : string) : bool := String.prefix p s.

(** [s.indexOf(p)]: the first position of [p] in [s], [-1] when absent. *)
Definition indexOf (s p : string) : Z :=
  match String.index 0 p s with
  | Some i => Z.of_nat i
  | None => (-1)%Z
  end.

(** [s.slice(start)]: a negative [start] counts from the end. *)
Definition slice (s : string) (start : Z) : string :=
  let len := Z.of_nat (String.length s) in
  let from := if (start <? 0)%Z then Z.max (len + start) 0 else Z.min start len in
  String.substring (Z.to_nat from) (String.length s - Z.to_nat from) s.

(** The replacement text of [s.replace(pat, rep)]: in [rep], [$$] stands
    for a dollar sign, [$&] for the matched text, [$`] for what precedes the
    match and [$'] for what follows it; a string pattern captures nothing,
    so any other [$] stands for itself. *)
Fixpoint expandReplacement (rep matched before after : string) : string :=
  match rep with
  | EmptyString => EmptyString
  | String c rest =>
      if (c =? "$")%char then
        match rest with
        | String d rest' =>
            if (d =? "$")%char then String "$" (expandReplacement rest' matched before after)
            else if (d =? "&")%char then matched ++ expandReplacement rest' matched before after
            else if (d =? "`")%char then before ++ expandReplacement rest' matched before after
            else if (d =? "'")%char then after ++ expandReplacement rest' matched before after
            else String c (expandReplacement rest matched before after)
        | EmptyString => String c EmptyString
        end
      else String c (expandReplacement rest matched before after)
  end.

(** [s.replace(pat, rep)] for a string pattern: the first occurrence only. *)
Definition replace (s pat rep : string) : string :=
  match String.index 0 pat s with
  | Some i =>
      let before := String.substring 0 i s in
      let after := String.substring (i + String.length pat)
                     (String.length s - (i + String.length pat)) s in
      before ++ expandReplacement rep pat before after ++ after
  | None => s
  end.

End Js.
Import Js.

(** ** Outcomes, state and the monad of asynchronous methods *)

(** A thrown [Error], identified by its [message]. *)
Definition JsError := string.

Inductive Outcome (A : Type) : Type :=
| Return (a : A)
| Throw (e : JsError).
Arguments Return {A} a.
Arguments Throw {A} e.

(** A connection handle ([new Web3(endpoint)]), named by its endpoint. *)
Definition Web3 := string.

Inductive LogLevel := LInfo | LWarn | LError.

(** The value of a field of a log record. *)
Inductive LogValue :=
| LStr (s : string)
| LList (l : list string).

(** Where [fileService.save] is asked to write. *)
Inductive MatchQuality := full | partialQuality.

Inductive SaveTarget :=
| PathTarget (path : string)
| FileTarget (matchQuality : option MatchQuality) (chain address : string)
             (source : option bool) (fileName : string).

(** Everything that leaves the Injector, in the order it happens. *)
Inductive Event :=
| Log (level : LogLevel) (fields : list (string * LogValue)) (msg : option string)
| CallGetBytecode (web3 : Web3) (address : string)
| CallScraping (fetchAddress txRegex : string) (web3 : Web3)
| CallGraphQL (graphQLFetchAddress contractAddress : string) (web3 : Web3)
| CallArchive (contractAddress : string) (archiveWeb3 : Web3)
| CallFetchMissing
| CallRecompile
| FsSave (target : SaveTarget) (content : string)
| FsDeletePartial (chain address : string).

Record State (World : Type) := mkState {
  world : World;
  trace : list Event
}.
Arguments mkState {World} world trace.
Arguments world {World} s.
Arguments trace {World} s.

Definition M (World A : Type) : Type := State World -> State World * Outcome A.

Section Monad.
Context {World : Type}.

Definition ret {A} (a : A) : M World A := fun st => (st, Return a).

Definition throw {A} (e : JsError) : M World A := fun st => (st, Throw e).

Definition bind {A B} (m : M World A) (k : A -> M World B) : M World B :=
  fun st =>
    match m st with
    | (st', Return a) => k a st'
    | (st', Throw e) => (st', Throw e)
    end.

(** [try { m } catch (e) { h e }] *)
Definition tryCatch {A} (m : M World A) (h : JsError -> M World A) : M World A :=
  fun st =>
    match m st with
    | (st', Return a) => (st', Return a)
    | (st', Throw e) => h e st'
    end.

(** Record an event. *)
Definition emit (ev : Event) : M World unit :=
  fun st => (mkState (world st) (trace st ++ [ev]), Return tt).

(** Call an outside function: the call is recorded, the world answers. *)
Definition call {A} (ev : Event) (f : World -> World * Outcome A) : M World A :=
  fun st =>
    let (w, r) := f (world st) in
    (mkState w (trace st ++ [ev]), r).

(** A call that cannot touch the world (a pure library function). *)
Definition lift {A} (r : Outcome A) : M World A := fun st => (st, r).

End Monad.

Declare Scope js_scope.
Delimit Scope js_scope with js.
Notation "x <- m ;; k" := (bind m (fun x => k))
  (at level 61, m at next level, right associativity) : js_scope.
Notation "m ;; k" := (bind m (fun _ => k))
  (at level 61, right associativity) : js_scope.
Local Open Scope js_scope.

(** ** Data of the Injector *)

(** [Status]: ["perfect"] (the exact tier) or ["partial"]; [null] is [None]. *)
Inductive Status := perfect | partial.

Module CompareResult.
Record t := mk {
  status : option Status;
  encodedConstructorArgs : option string
}.
End CompareResult.

Module Match.
Record t := mk {
  address : option string;
  status : option Status;
  encodedConstructorArgs : option string;
  message : option string
}.
End Match.

(** [class InjectorChain]; a field left [undefined] is [None]. *)
Record InjectorChain := mkChain {
  web3 : Web3;
  rpc : list string;
  name : JsString;
  contractFetchAddress : JsString;
  graphQLFetchAddress : JsString;
  txRegex : JsString;
  archiveWeb3 : option Web3
}.

(** The compiler's result, [RecompilationResult]. *)
Record RecompilationResult := mkRecompiled {
  bytecode : string;
  deployedBytecode : string;
  metadata : string
}.

(** [CheckedContract]: [solidity] maps source paths to contents, listed in
    the order [for ... in] walks them. *)
Record CheckedContract := mkContract {
  contractMetadata : string;
  solidity : list (string * string);
  contractName : string
}.

(** [InputData], as it arrives from the server or the monitor. *)
Record InputData := mkInput {
  inputChain : JsString;
  inputAddresses : list JsString;
  inputContract : CheckedContract;
  inputBytecode : JsString;
  inputCreationData : JsString
}.

(** The decoded auxiliary-data trailer, read through its byte-string
    entries (the compiler stores byte strings under [bzzr0], [bzzr1] and
    [ipfs]); a key that is absent gives [None]. *)
Definition CborData := string -> option (list byte).

(** ** The collaborators *)

Record Env := mkEnv {
  World : Type;
  (** [getBytecodeWithoutMetadata] of [../utils], imported as [trimMetadata] *)
  trimMetadata : string -> string;
  (** [Web3.utils.toChecksumAddress]; throws on an invalid address *)
  toChecksumAddress : string -> Outcome string;
  (** [getBytecode(web3, address)] of [../utils] *)
  getBytecode : Web3 -> string -> World -> World * Outcome JsString;
  (** the three retrieval strategies of [../utils] *)
  getCreationDataByScraping : string -> string -> Web3 -> World -> World * Outcome JsString;
  getCreationDataFromGraphQL : string -> string -> Web3 -> World -> World * Outcome JsString;
  getCreationDataFromArchive : string -> Web3 -> World -> World * Outcome JsString;
  (** [Web3.utils.hexToBytes]; throws on a string that is not hex *)
  hexToBytes : string -> Outcome (list byte);
  (** [cborDecode] of the core package *)
  cborDecode : list byte -> Outcome CborData;
  (** [multihashes.toB58String] *)
  toB58String : list byte -> string;
  (** [CheckedContract.isValid], [CheckedContract.fetchMissing], [recompile] *)
  isValid : CheckedContract -> bool;
  fetchMissing : CheckedContract -> World -> World * Outcome CheckedContract;
  recompile : string -> list (string * string) -> World -> World * Outcome RecompilationResult;
  (** [this.chains], filled once by [initChains] and only read afterwards *)
  chains : string -> option InjectorChain
}.


(** ** The Injector *)

Section Injector.
Context (E : Env).

Local Abbreviation Async := (M (World E)).

(** [this.chains[chain]], whose fields are read next: reading a field of
    [undefined] raises a [TypeError]. *)
Definition chainOf (chain : string) : Async InjectorChain :=
  match chains E chain with
  | Some c => ret c
  | None => throw "TypeError: cannot read a property of undefined"
  end.

(** A block that may [return v] (it then yields [Some v]) or run to its
    end (it yields [None]), followed by the rest of the method. *)
Definition returning {A} (block : Async (option A)) (rest : Async A) : Async A :=
  r <- block ;;
  match r with
  | Some v => ret v
  | None => rest
  end.

(** [creationData || await fetch] *)
Definition orFetch (creationData : JsString) (fetch : Async JsString) : Async JsString :=
  if truthy creationData then ret creationData else fetch.

(** The text of a string that is known to be truthy. *)
Definition text (v : JsString) : string :=
  match v with
  | Some s => s
  | None => ""
  end.

Definition getCreationData (chain contractAddress : string) : Async JsString :=
  let loc := "[GET_CREATION_DATA]" in
  c <- chainOf chain ;;
  let txFetchAddress := contractFetchAddress c in
  let txRegex := txRegex c in
  returning
    (if truthy txFetchAddress && truthy txRegex then
       let txFetchAddress := replace (text txFetchAddress) "${ADDRESS}" contractAddress in
       let web3 := web3 c in
       emit (Log LInfo [("loc", LStr loc); ("chain", LStr chain);
                        ("contractAddress", LStr contractAddress);
                        ("fetchAddress", LStr txFetchAddress)]
                 (Some "Scraping block explorer")) ;;
       tryCatch
         (v <- call (CallScraping txFetchAddress (text txRegex) web3)
                    (getCreationDataByScraping E txFetchAddress (text txRegex) web3) ;;
          ret (Some v))
         (fun err =>
            emit (Log LError [("loc", LStr loc); ("chain", LStr chain);
                              ("contractAddress", LStr contractAddress);
                              ("err", LStr err)]
                      (Some "Scraping failed!")) ;;
            ret None)
     else ret None)
  (let graphQLFetchAddress := graphQLFetchAddress c in
   returning
     (if truthy graphQLFetchAddress then
        let web3 := web3 c in
        tryCatch
          (v <- call (CallGraphQL (text graphQLFetchAddress) contractAddress web3)
                     (getCreationDataFromGraphQL E (text graphQLFetchAddress) contractAddress web3) ;;
           ret (Some v))
          (fun err =>
             emit (Log LError [("loc", LStr loc); ("chain", LStr chain);
                               ("contractAddress", LStr contractAddress);
                               ("err", LStr err)]
                       None) ;;
             ret None)
      else ret None)
   (let archiveWeb3 := archiveWeb3 c in
    returning
      (match archiveWeb3 with
       | Some archiveWeb3 =>
           emit (Log LInfo [("loc", LStr loc); ("chain", LStr chain);
                            ("contractAddress", LStr contractAddress)]
                     (Some "Fetching archive data")) ;;
           tryCatch
             (v <- call (CallArchive contractAddress archiveWeb3)
                        (getCreationDataFromArchive E contractAddress archiveWeb3) ;;
              ret (Some v))
             (fun err =>
                emit (Log LError [("loc", LStr loc); ("chain", LStr chain);
                                  ("contractAddress", LStr contractAddress);
                                  ("err", LStr err)]
                          (Some "Archive search failed!")) ;;
                ret None)
       | None => ret None
       end)
    (let err := "Cannot fetch creation data" in
     emit (Log LError [("loc", LStr loc); ("chain", LStr chain);
                       ("contractAddress", LStr contractAddress);
                       ("err", LStr err)]
               None) ;;
     throw err))).

Definition extractEncodedConstructorArgs (creationData compiledCreationBytecode : string) : string :=
  let startIndex := indexOf creationData compiledCreationBytecode in
  "0x" ++ slice creationData (startIndex + Z.of_nat (String.length compiledCreationBytecode)).

Definition compareBytecodes
  (deployedBytecode creationData : JsString)
  (compiledRuntimeBytecode compiledCreationBytecode chain address : string)
  : Async CompareResult.t :=
  let none := CompareResult.mk None None in
  match deployedBytecode with
  | Some deployedBytecode =>
      if negb (deployedBytecode =? "") && (2 <? String.length deployedBytecode)%nat then
        if deployedBytecode =? compiledRuntimeBytecode then
          ret (CompareResult.mk (Some perfect) None)
        else
          let trimmedDeployedBytecode := trimMetadata E deployedBytecode in
          let trimmedCompiledRuntimeBytecode := trimMetadata E compiledRuntimeBytecode in
          if trimmedDeployedBytecode =? trimmedCompiledRuntimeBytecode then
            ret (CompareResult.mk (Some partial) None)
          else if (String.length trimmedDeployedBytecode
                   =? String.length trimmedCompiledRuntimeBytecode)%nat then
            creationData <- orFetch creationData (getCreationData chain address) ;;
            match creationData with
            | Some creationData =>
                if negb (creationData =? "") then
                  if startsWith creationData compiledCreationBytecode then
                    let encodedConstructorArgs :=
                      extractEncodedConstructorArgs creationData compiledCreationBytecode in
                    ret (CompareResult.mk (Some perfect) (Some encodedConstructorArgs))
                  else
                    let trimmedCompiledCreationBytecode := trimMetadata E compiledCreationBytecode in
                    if startsWith creationData trimmedCompiledCreationBytecode then
                      ret (CompareResult.mk (Some partial) None)
                    else ret none
                else ret none
            | None => ret none
            end
          else ret none
      else ret none
  | None => ret none
  end.

(** The part of the loop body that reads the code at [address]: a failure
    of the request leaves [deployedBytecode] at [null]. *)
Definition fetchDeployedBytecode (chain address : string) : Async JsString :=
  tryCatch
    (emit (Log LInfo [("loc", LStr "[MATCH]"); ("chain", LStr chain);
                      ("address", LStr address)]
               (Some "Retrieving contract bytecode address")) ;;
     c <- chainOf chain ;;
     call (CallGetBytecode (web3 c) address) (getBytecode E (web3 c) address))
    (fun _ => ret None).

Definition withMessage (m : Match.t) (message : string) : Match.t :=
  Match.mk (Match.address m) (Match.status m) (Match.encodedConstructorArgs m) (Some message).

(** The message chosen when the only candidate did not match. *)
Definition diagnose (chainName address : string) (deployedBytecode : JsString) : string :=
  if negb (truthy deployedBytecode) then
    chainName ++ " is temporarily unavailable."
  else if text deployedBytecode =? "0x" then
    chainName ++ " does not have a contract deployed at " ++ address ++ "."
  else
    "The deployed and recompiled bytecode don't match.".

(** One turn of the loop of [matchBytecodeToAddress] over a candidate
    [address]; [n] is [addresses.length].  The result is the value of
    [match] after the turn, and whether the turn ended in [break]. *)
Definition tryAddress (n : nat) (chain chainName : string)
  (compiledRuntimeBytecode compiledCreationBytecode : string)
  (address : string) (match_ : Match.t) : Async (Match.t * bool) :=
  address <- lift (toChecksumAddress E address) ;;
  deployedBytecode <- fetchDeployedBytecode chain address ;;
  r <- tryCatch
         (compareResult <- compareBytecodes deployedBytecode None
                             compiledRuntimeBytecode compiledCreationBytecode chain address ;;
          ret (Some compareResult, match_))
         (fun _ =>
            ret (None,
                 if (n =? 1)%nat
                 then withMessage match_
                        "There were problems during contract verification. Please try again in a minute."
                 else match_)) ;;
  let '(compareResult, match_) := r in
  match compareResult with
  | Some (CompareResult.mk (Some status) encodedConstructorArgs) =>
      ret (Match.mk (Some address) (Some status) encodedConstructorArgs None, true)
  | _ =>
      if (n =? 1)%nat && negb (truthy (Match.message match_)) then
        ret (withMessage match_ (diagnose chainName address deployedBytecode), false)
      else ret (match_, false)
  end.

(** [for (let address of addresses) { ... }], left at the first [break]. *)
Fixpoint forAddresses (n : nat) (chain chainName : string)
  (compiledRuntimeBytecode compiledCreationBytecode : string)
  (addresses : list string) (match_ : Match.t) : Async (Match.t * bool) :=
  match addresses with
  | [] => ret (match_, false)
  | address :: rest =>
      r <- tryAddress n chain chainName compiledRuntimeBytecode compiledCreationBytecode
             address match_ ;;
      let '(match_, broke) := r in
      if broke then ret (match_, true)
      else forAddresses n chain chainName compiledRuntimeBytecode compiledCreationBytecode
             rest match_
  end.

Definition matchBytecodeToAddress (chain : string) (addresses : list string)
  (compiledRuntimeBytecode compiledCreationBytecode : string) : Async Match.t :=
  let match_ := Match.mk None None None None in
  c <- chainOf chain ;;
  let chainName := if truthy (name c) then text (name c) else "The chain" in
  r <- forAddresses (List.length addresses) chain chainName
         compiledRuntimeBytecode compiledCreationBytecode addresses match_ ;;
  ret (fst r).

Definition validateAddresses (addresses : list JsString) : Async unit :=
  let err := "Missing address for submitted sources/metadata" in
  if (List.length addresses =? 0)%nat then throw err
  else if existsb (fun address => match address with None => true | Some _ => false end) addresses
       then throw err
       else ret tt.

Definition validateChain (chain : JsString) : Async unit :=
  if negb (truthy chain) then throw "Missing chain name for submitted sources/metadata"
  else ret tt.

Definition statusToMatchQuality (status : option Status) : option MatchQuality :=
  match status with
  | Some perfect => Some full
  | Some partial => Some partialQuality
  | None => None
  end.

(** The class [[a-z0-9_./-]] under the flag [i]. *)
Definition pathChar (c : ascii) : bool :=
  let n := nat_of_ascii c in
  ((97 <=? n) && (n <=? 122) || (65 <=? n) && (n <=? 90) || (48 <=? n) && (n <=? 57)
   || (n =? 95) || (n =? 46) || (n =? 47) || (n =? 45))%nat.

Fixpoint mapChars (f : ascii -> ascii) (s : string) : string :=
  match s with
  | EmptyString => EmptyString
  | String c s' => String (f c) (mapChars f s')
  end.

(** [[.]+($|\/)] at the head of [s]: what follows the match, if it matches. *)
Fixpoint dotsThenBoundary (seen : bool) (s : string) : option string :=
  match s with
  | EmptyString => if seen then Some EmptyString else None
  | String c s' =>
      if (c =? ".")%char then dotsThenBoundary true s'
      else if seen && (c =? "/")%char then Some s'
      else None
  end.

(** [s.replace(/(^|\/)[.]+($|\/)/, "_")]: the leftmost match only;
    [atStart] tells whether [s] begins at the start of the subject. *)
Fixpoint replaceDotSegment (atStart : bool) (s : string) : string :=
  match (if atStart then dotsThenBoundary false s else None) with
  | Some rest => "_" ++ rest
  | None =>
      match s with
      | EmptyString => EmptyString
      | String c s' =>
          match (if (c =? "/")%char then dotsThenBoundary false s' else None) with
          | Some rest => "_" ++ rest
          | None => String c (replaceDotSegment false s')
          end
      end
  end.

Definition sanitizePath (originalPath : string) : string :=
  replaceDotSegment true
    (mapChars (fun c => if pathChar c then c else "_"%char) originalPath).

(** [(n).toString(16)] for a nibble. *)
Definition hexDigit (n : Z) : string :=
  String.substring (Z.to_nat n) 1 "0123456789abcdef".

(** [Web3.utils.bytesToHex]: two digits per byte after ["0x"]. *)
Definition bytesToHex (bytes : list byte) : string :=
  "0x" ++ String.concat ""
            (List.map (fun b => let v := Z.of_N (Byte.to_N b) in
                                (hexDigit (Z.shiftr v 4) ++ hexDigit (Z.land v 15))%string)
                      bytes).

Definition getMetadataPathFromCborEncoded (compilationResult : RecompilationResult)
  (address chain : string) : Async (option string) :=
  bytes <- lift (hexToBytes E (deployedBytecode compilationResult)) ;;
  cborData <- lift (cborDecode E bytes) ;;
  match cborData "bzzr0" with
  | Some hash => ret (Some ("/swarm/bzzr0/" ++ slice (bytesToHex hash) 2))
  | None =>
      match cborData "bzzr1" with
      | Some hash => ret (Some ("/swarm/bzzr1/" ++ slice (bytesToHex hash) 2))
      | None =>
          match cborData "ipfs" with
          | Some hash => ret (Some ("/ipfs/" ++ toB58String E hash))
          | None =>
              emit (Log LError [("loc", LStr "[INJECTOR:GET_METADATA_PATH]");
                                ("address", LStr address); ("chain", LStr chain);
                                ("err", LStr "No metadata hash in cbor encoded data.")]
                        None) ;;
              ret None
          end
      end
  end.

Definition storeMetadata (matchQuality : option MatchQuality) (chain address : string)
  (compilationResult : RecompilationResult) : Async unit :=
  emit (FsSave (FileTarget matchQuality chain address None "metadata.json")
               (metadata compilationResult)).

Fixpoint storeSources (matchQuality : option MatchQuality) (chain address : string)
  (sources : list (string * string)) : Async unit :=
  match sources with
  | [] => ret tt
  | (sourcePath, content) :: rest =>
      emit (FsSave (FileTarget matchQuality chain address (Some true) (sanitizePath sourcePath))
                   content) ;;
      storeSources matchQuality chain address rest
  end.

Definition storeConstructorArgs (matchQuality : option MatchQuality) (chain address : string)
  (encodedConstructorArgs : string) : Async unit :=
  emit (FsSave (FileTarget matchQuality chain address (Some false) "constructor-args.txt")
               encodedConstructorArgs).

(** The second half of [inject]: what is done with the [match] once it has
    been obtained (from [if (match.address && match.status)] on). *)
Definition storeMatch (chain : string) (addresses : list string) (contract : CheckedContract)
  (compilationResult : RecompilationResult) (match_ : Match.t) : Async Match.t :=
  if truthy (Match.address match_)
     && match Match.status match_ with Some _ => true | None => false end then
    let address := text (Match.address match_) in
    metadataPath <- getMetadataPathFromCborEncoded compilationResult address chain ;;
    match_ <- (if truthy metadataPath then
                 emit (FsSave (PathTarget (text metadataPath)) (metadata compilationResult)) ;;
                 emit (FsDeletePartial chain address) ;;
                 ret match_
               else
                 ret (Match.mk (Match.address match_) (Some partial)
                        (Match.encodedConstructorArgs match_) (Match.message match_))) ;;
    let matchQuality := statusToMatchQuality (Match.status match_) in
    storeSources matchQuality chain address (solidity contract) ;;
    storeMetadata matchQuality chain address compilationResult ;;
    (if truthy (Match.encodedConstructorArgs match_)
        && negb (String.length (text (Match.encodedConstructorArgs match_)) =? 0)%nat
     then storeConstructorArgs matchQuality chain address
            (text (Match.encodedConstructorArgs match_))
     else ret tt) ;;
    ret match_
  else
    let message := if truthy (Match.message match_) then text (Match.message match_)
                   else "Could not match the deployed and recompiled bytecode." in
    let err := ("Contract name: " ++ contractName contract ++ ". " ++ message)%string in
    emit (Log LError [("loc", LStr "[INJECT]"); ("chain", LStr chain);
                      ("addresses", LList addresses); ("err", LStr err)]
              None) ;;
    throw err.

(** The first half of [inject]: the input is validated, the contract is
    completed and compiled, and a [match] is obtained, from the bytecode that
    came with the input or from the chain. *)
Definition obtainMatch (inputData : InputData)
  : Async (CheckedContract * RecompilationResult * Match.t) :=
  let chain := inputChain inputData in
  let addresses := inputAddresses inputData in
  let contract := inputContract inputData in
  validateAddresses addresses ;;
  validateChain chain ;;
  let chain := text chain in
  let addresses := List.map text addresses in
  contract <- (if isValid E contract then ret contract
               else call CallFetchMissing (fetchMissing E contract)) ;;
  compilationResult <- call CallRecompile
                         (recompile E (contractMetadata contract) (solidity contract)) ;;
  match_ <- (if truthy (inputBytecode inputData) then
               if negb (List.length addresses =? 1)%nat then
                 let err := "Injector cannot work with multiple addresses if bytecode is provided" in
                 emit (Log LError [("loc", LStr "[INJECTOR]"); ("addresses", LList addresses);
                                   ("err", LStr err)]
                           None) ;;
                 throw err
               else
                 let address := List.hd "" addresses in
                 compareResult <- compareBytecodes (inputBytecode inputData)
                                    (inputCreationData inputData)
                                    (deployedBytecode compilationResult)
                                    (bytecode compilationResult) chain address ;;
                 checkedAddress <- lift (toChecksumAddress E address) ;;
                 ret (Match.mk (Some checkedAddress) (CompareResult.status compareResult)
                        (CompareResult.encodedConstructorArgs compareResult) None)
             else
               matchBytecodeToAddress chain addresses
                 (deployedBytecode compilationResult) (bytecode compilationResult)) ;;
  ret (contract, compilationResult, match_).

Definition inject (inputData : InputData) : Async Match.t :=
  r <- obtainMatch inputData ;;
  let '(contract, compilationResult, match_) := r in
  storeMatch (text (inputChain inputData)) (List.map text (inputAddresses inputData))
    contract compilationResult match_.

End Injector.

(** ** A small world to run the Injector in *)

Module Demo.

(** The value of a hex digit, of either case. *)
Definition hexValue (c : ascii) : option Z :=
  let n := Z.of_nat (nat_of_ascii c) in
  if ((48 <=? n) && (n <=? 57))%Z then Some (n - 48)%Z
  else if ((97 <=? n) && (n <=? 102))%Z then Some (n - 87)%Z
  else if ((65 <=? n) && (n <=? 70))%Z then Some (n - 55)%Z
  else None.

Definition byteOfZ (v : Z) : byte :=
  match Byte.of_N (Z.to_N v) with
  | Some b => b
  | None => x00
  end.

(** The bytes of a run of hex digits, two digits to a byte (a last single
    digit makes a byte of its own); [None] at a character that is no digit. *)
Fixpoint hexPairs (s : string) : option (list byte) :=
  match s with
  | EmptyString => Some []
  | String c EmptyString => option_map (fun v => [byteOfZ v]) (hexValue c)
  | String c (String d s') =>
      match hexValue c, hexValue d, hexPairs s' with
      | Some hi, Some lo, Some rest => Some (byteOfZ (16 * hi + lo) :: rest)
      | _, _, _ => None
      end
  end.

(** [Web3.utils.hexToBytes]: only a ["0x"] string of hex digits is taken. *)
Definition hexToBytes (hex : string) : Outcome (list byte) :=
  match hex with
  | String "0" (String x digits) =>
      if ((x =? "x") || (x =? "X"))%char then
        match hexPairs digits with
        | Some bytes => Return bytes
        | None => Throw ("Given value " ++ hex ++ " is not a valid hex string.")
        end
      else Throw ("Given value " ++ hex ++ " is not a valid hex string.")
  | _ => Throw ("Given value " ++ hex ++ " is not a valid hex string.")
  end.

(** The length announced by the last two bytes of a bytecode (big-endian),
    when the bytecode is long enough to hold the blob and the two bytes. *)
Definition trailerLength (bytes : list byte) : option nat :=
  match rev bytes with
  | lo :: hi :: _ =>
      let l := N.to_nat (256 * Byte.to_N hi + Byte.to_N lo) in
      if (l + 2 <=? List.length bytes)%nat then Some l else None
  | _ => None
  end.

(** Modelled from the spec: [getBytecodeWithoutMetadata] of [../utils] is not
    among the sources at hand.  The trailer is the auxiliary-data blob
    followed by its two-byte big-endian length; trimming removes exactly
    [length + 2] trailing bytes, and a bytecode without such a trailer is
    left as it is. *)
Definition trimMetadata (bytecode : string) : string :=
  match hexToBytes bytecode with
  | Return bytes =>
      match trailerLength bytes with
      | Some l => String.substring 0 (String.length bytecode - 2 * (l + 2)) bytecode
      | None => bytecode
      end
  | Throw _ => bytecode
  end.

Fixpoint stringOfBytes (bytes : list byte) : string :=
  match bytes with
  | [] => EmptyString
  | b :: rest => String (ascii_of_byte b) (stringOfBytes rest)
  end.

(** One entry of the trailer map: a short text key, then a byte string
    (short, or with a one-byte length) or a simple value; the rest of the
    input comes back with it. *)
Definition cborEntry (bytes : list byte)
  : option (string * option (list byte) * list byte) :=
  match bytes with
  | k :: rest =>
      let kn := N.to_nat (Byte.to_N k) in
      if ((96 <=? kn) && (kn <? 120) && (kn - 96 <=? List.length rest))%nat then
        let key := stringOfBytes (firstn (kn - 96) rest) in
        match skipn (kn - 96) rest with
        | v :: rest' =>
            let vn := N.to_nat (Byte.to_N v) in
            if ((64 <=? vn) && (vn <? 88) && (vn - 64 <=? List.length rest'))%nat then
              Some (key, Some (firstn (vn - 64) rest'), skipn (vn - 64) rest')
            else if (vn =? 88)%nat then
              match rest' with
              | n :: rest'' =>
                  let len := N.to_nat (Byte.to_N n) in
                  if (len <=? List.length rest'')%nat
                  then Some (key, Some (firstn len rest''), skipn len rest'')
                  else None
              | [] => None
              end
            else if ((vn =? 244) || (vn =? 245))%nat then Some (key, None, rest')
            else None
        | [] => None
        end
      else None
  | [] => None
  end.

Fixpoint cborEntries (n : nat) (bytes : list byte)
  : option (list (string * option (list byte))) :=
  match n with
  | O => match bytes with [] => Some [] | _ :: _ => None end
  | S n' =>
      match cborEntry bytes with
      | Some (key, value, rest) =>
          option_map (cons (key, value)) (cborEntries n' rest)
      | None => None
      end
  end.

Fixpoint cborLookup (entries : list (string * option (list byte))) (key : string)
  : option (list byte) :=
  match entries with
  | [] => None
  | (k, v) :: rest => if k =? key then v else cborLookup rest key
  end.

(** Modelled from the spec: [cborDecode] of the core package is not among the
    sources at hand.  It decodes the auxiliary-data blob that precedes the
    two-byte length at the end of the bytecode, a self-describing map; a
    bytecode too short for the announced blob, or a blob that is no such map,
    cannot be decoded. *)
Definition cborDecode (bytes : list byte) : Outcome CborData :=
  match trailerLength bytes with
  | Some l =>
      match firstn l (skipn (List.length bytes - (l + 2)) bytes) with
      | m :: blob =>
          let mn := N.to_nat (Byte.to_N m) in
          if ((160 <=? mn) && (mn <? 184))%nat then
            match cborEntries (mn - 160) blob with
            | Some entries => Return (cborLookup entries)
            | None => Throw "Failed to parse"
            end
          else Throw "Failed to parse"
      | [] => Throw "Insufficient data"
      end
  | None => Throw "Insufficient data"
  end.

(** A stand-in for [Web3.utils.toChecksumAddress]: a ["0x"] string of forty
    hex digits is taken as it is (the mixed-case checksum needs a hash);
    anything else is no address. *)
Definition toChecksumAddress (address : string) : Outcome string :=
  match hexToBytes address with
  | Return bytes =>
      if (String.length address =? 42)%nat then Return address
      else Throw ("Given address " ++ address ++ " is not a valid Ethereum address.")
  | Throw _ => Throw ("Given address " ++ address ++ " is not a valid Ethereum address.")
  end.

(** The digits of [n] in base 58, most significant first, in front of
    [acc]; [fuel] bounds their number. *)
Fixpoint base58Digits (fuel : nat) (n : N) (acc : string) : string :=
  match fuel with
  | O => acc
  | S fuel' =>
      if (n =? 0)%N then acc
      else base58Digits fuel' (n / 58)%N
             (String.substring (N.to_nat (n mod 58)%N) 1
                "123456789ABCDEFGHJKLMNPQRSTUVWXYZabcdefghijkmnopqrstuvwxyz"
              ++ acc)
  end.

Fixpoint leadingZeros (bytes : list byte) : string :=
  match bytes with
  | x00 :: rest => String "1" (leadingZeros rest)
  | _ => EmptyString
  end.

(** [multihashes.toB58String]: the bytes as a number written in base 58
    (Bitcoin alphabet), a ["1"] for each leading zero byte. *)
Definition toB58String (hash : list byte) : string :=
  leadingZeros hash
  ++ base58Digits (2 * List.length hash)
       (fold_left (fun acc b => (256 * acc + Byte.to_N b)%N) hash 0%N) EmptyString.

(** What the network answers in a scenario; the world itself has no state. *)
Record Scenario := mkScenario {
  codeAt : string -> Outcome JsString;
  scraped : Outcome JsString;
  indexed : Outcome JsString;
  archived : Outcome JsString;
  compiled : Outcome RecompilationResult;
  chainTable : string -> option InjectorChain
}.

Definition env (sc : Scenario) : Env :=
  mkEnv unit trimMetadata toChecksumAddress
    (fun _ address w => (w, codeAt sc address))
    (fun _ _ _ w => (w, scraped sc))
    (fun _ _ _ w => (w, indexed sc))
    (fun _ _ w => (w, archived sc))
    hexToBytes cborDecode toB58String
    (fun _ => true)
    (fun contract w => (w, Return contract))
    (fun _ _ w => (w, compiled sc))
    (chainTable sc).

Definition start : State unit := mkState tt [].

(** Two chains: one with every retrieval strategy configured, one with none. *)
Definition equipped : InjectorChain :=
  mkChain "https://rpc.example" ["https://rpc.example"] (Some "Ethereum Mainnet")
    (Some "https://explorer.example/address/${ADDRESS}")
    (Some "https://indexer.example/graphql")
    (Some "at txn (0x[a-f0-9]+)")
    (Some "https://archive.example").

Definition bare : InjectorChain :=
  mkChain "https://rpc.example" ["https://rpc.example"] (Some "Ethereum Mainnet")
    None None None None.

Definition only (c : InjectorChain) (chain : string) : option InjectorChain :=
  if chain =? "1" then Some c else None.

Definition alice : string := "0x1111111111111111111111111111111111111111".
Definition bob : string := "0x2222222222222222222222222222222222222222".

(** A runtime bytecode with an [ipfs] trailer, and the same without one. *)
Definition runtimeWithTrailer : string :=
  "0x6001600055a2646970667358221220aabbccddeeff00112233445566778899aabbccddeeff0011223344556677889964736f6c63430008060033".
Definition runtimeBare : string := "0x6001600055".

Definition artifact (runtime : string) : RecompilationResult :=
  mkRecompiled "0x6060" runtime "{}".

Definition contract : CheckedContract :=
  mkContract "{}" [("contracts/A.sol", "contract A {}")] "A".

(** Every strategy is configured; scraping and the indexer fail, the archive
    search delivers. *)
Definition archiveDelivers : Scenario :=
  mkScenario (fun _ => Return (Some "0x6001"))
    (Throw "captcha") (Throw "timeout") (Return (Some "0x6060abcd"))
    (Return (artifact "0x6002")) (only equipped).

(** Every strategy is configured; scraping comes back with an empty string,
    the indexer would deliver. *)
Definition emptyScrape : Scenario :=
  mkScenario (fun _ => Return (Some "0x6001"))
    (Return (Some "")) (Return (Some "0x6060abcd")) (Return (Some "0x6060abcd"))
    (Return (artifact "0x6002")) (only equipped).

(** No strategy is configured; the code at every address differs from the
    compiled code in content, not in length. *)
Definition noStrategy : Scenario :=
  mkScenario (fun _ => Return (Some "0x6001"))
    (Throw "unused") (Throw "unused") (Throw "unused")
    (Return (artifact "0x6002")) (only bare).

(** The code at [bob] is the compiled code; at any other address it is not. *)
Definition bobMatches : Scenario :=
  mkScenario (fun address => if address =? bob then Return (Some runtimeWithTrailer)
                             else Return (Some "0x60016000"))
    (Throw "unused") (Throw "unused") (Throw "unused")
    (Return (artifact runtimeWithTrailer)) (only bare).

(** Every strategy is configured and every one fails. *)
Definition allFail : Scenario :=
  mkScenario (fun _ => Return (Some "0x6001"))
    (Throw "captcha") (Throw "timeout") (Throw "pruned")
    (Return (artifact "0x6002")) (only equipped).

(** Nothing is deployed at any address. *)
Definition nothingDeployed : Scenario :=
  mkScenario (fun _ => Return (Some "0x"))
    (Throw "unused") (Throw "unused") (Throw "unused")
    (Return (artifact runtimeWithTrailer)) (only bare).

Definition carol : string := "0x3333333333333333333333333333333333333333".

(** The creation data is the compiled creation bytecode, nothing more. *)
Definition runtimeOther : string :=
  "0x6001600056a2646970667358221220aabbccddeeff00112233445566778899aabbccddeeff0011223344556677889964736f6c63430008060033".

Definition noArguments : Scenario :=
  mkScenario (fun _ => Return (Some runtimeOther))
    (Return (Some "0x6060")) (Throw "unused") (Throw "unused")
    (Return (artifact runtimeWithTrailer)) (only equipped).

(** The code of [runtimeWithTrailer] under another trailer. *)
Definition runtimeOtherTrailer : string :=
  "0x6001600055a26469706673582212200102030405060708090a0b0c0d0e0f101112131415161718191a1b1c1d1e1f2064736f6c63430008060033".

(** The node does not answer. *)
Definition nodeDown : Scenario :=
  mkScenario (fun _ => Throw "connection refused")
    (Throw "unused") (Throw "unused") (Throw "unused")
    (Return (artifact runtimeWithTrailer)) (only bare).

(** The sources do not compile. *)
Definition compilerFails : Scenario :=
  mkScenario (fun _ => Return (Some runtimeWithTrailer))
    (Throw "unused") (Throw "unused") (Throw "unused")
    (Throw "Compilation failed") (only bare).

(** Inputs of [inject]. *)
Definition twoCandidates : InputData :=
  mkInput (Some "1") [Some alice; Some bob] contract None None.

Definition soleCandidate : InputData :=
  mkInput (Some "1") [Some alice] contract None None.

Definition withBytecode (addresses : list JsString) : InputData :=
  mkInput (Some "1") addresses contract (Some runtimeOther) (Some "0x6060").

End Demo.

(** ** Predicates of the statements *)

(** The conditions under which [compareBytecodes] goes past the comparison
    of runtime bytecodes and on to the creation data: code is deployed, it
    matches neither as it is nor trimmed, and the trimmed lengths agree. *)
Definition reachesCreationData (E : Env) (deployedBytecode compiledRuntimeBytecode : string) : Prop :=
  2 < String.length deployedBytecode /\
  deployedBytecode <> compiledRuntimeBytecode /\
  trimMetadata E deployedBytecode <> trimMetadata E compiledRuntimeBytecode /\
  String.length (trimMetadata E deployedBytecode)
  = String.length (trimMetadata E compiledRuntimeBytecode).

(** The result "no match". *)
Definition noMatch : CompareResult.t := CompareResult.mk None None.

(** *** Retrieval strategies, as the specification speaks of them *)

(** A retrieval strategy together with what its request needs. *)
Inductive Strategy :=
| Scrape (fetchAddress txRegex : string) (web3 : Web3)
| Indexer (graphQLFetchAddress : string) (web3 : Web3)
| Archive (archiveWeb3 : Web3).

(** The strategies a chain is configured for, in the fixed order: scraping
    needs the address template and the pattern, the indexer its endpoint,
    the archive search an archive node. *)
Definition configuredStrategies (c : InjectorChain) (contractAddress : string)
  : list Strategy :=
  ((if truthy (contractFetchAddress c) && truthy (txRegex c)
    then [Scrape (replace (text (contractFetchAddress c)) "${ADDRESS}" contractAddress)
            (text (txRegex c)) (web3 c)]
    else [])
   ++ (if truthy (graphQLFetchAddress c)
       then [Indexer (text (graphQLFetchAddress c)) (web3 c)]
       else [])
   ++ (match archiveWeb3 c with
       | Some archiveWeb3 => [Archive archiveWeb3]
       | None => []
       end))%list.

Definition creationLog (level : LogLevel) (chain contractAddress : string)
  (more : list (string * LogValue)) (msg : option string) : Event :=
  Log level ([("loc", LStr "[GET_CREATION_DATA]"); ("chain", LStr chain);
              ("contractAddress", LStr contractAddress)] ++ more)%list msg.

(** One attempt: the strategy is announced in the log (the indexer is not)
    and its request is made. *)
Definition attempt (E : Env) (chain contractAddress : string) (s : Strategy)
  : M (World E) JsString :=
  match s with
  | Scrape fetchAddress txRegex web3 =>
      emit (creationLog LInfo chain contractAddress
              [("fetchAddress", LStr fetchAddress)] (Some "Scraping block explorer")) ;;
      call (CallScraping fetchAddress txRegex web3)
           (getCreationDataByScraping E fetchAddress txRegex web3)
  | Indexer graphQLFetchAddress web3 =>
      call (CallGraphQL graphQLFetchAddress contractAddress web3)
           (getCreationDataFromGraphQL E graphQLFetchAddress contractAddress web3)
  | Archive archiveWeb3 =>
      emit (creationLog LInfo chain contractAddress [] (Some "Fetching archive data")) ;;
      call (CallArchive contractAddress archiveWeb3)
           (getCreationDataFromArchive E contractAddress archiveWeb3)
  end.

(** The log record that follows the failure [err] of a strategy. *)
Definition failureLog (chain contractAddress : string) (s : Strategy) (err : JsError)
  : Event :=
  creationLog LError chain contractAddress [("err", LStr err)]
    match s with
    | Scrape _ _ _ => Some "Scraping failed!"
    | Indexer _ _ => None
    | Archive _ => Some "Archive search failed!"
    end.

(** The log record written when no strategy is left. *)
Definition exhaustedLog (chain contractAddress : string) : Event :=
  creationLog LError chain contractAddress [("err", LStr "Cannot fetch creation data")] None.

(** The state [st] with one more event on its trace. *)
Definition logged {World : Type} (ev : Event) (st : State World) : State World :=
  mkState (world st) (trace st ++ [ev]).

(** "First strategy that succeeds wins": the strategies are attempted in
    order; a failure is logged and the next one is attempted; when none is
    left the resolver fails. *)
Fixpoint firstSuccess (E : Env) (chain contractAddress : string) (ss : list Strategy)
  : M (World E) JsString :=
  match ss with
  | [] => emit (exhaustedLog chain contractAddress) ;; throw "Cannot fetch creation data"
  | s :: rest =>
      tryCatch (attempt E chain contractAddress s)
        (fun err =>
           emit (failureLog chain contractAddress s err) ;;
           firstSuccess E chain contractAddress rest)
  end.

(** [AllFail E chain a ss st st']: from [st], each strategy of [ss] is
    attempted in turn and throws, each failure is logged, and [st'] is the
    state after the last of these log records. *)
Inductive AllFail (E : Env) (chain contractAddress : string)
  : list Strategy -> State (World E) -> State (World E) -> Prop :=
| AllFail_nil st : AllFail E chain contractAddress [] st st
| AllFail_cons s ss st st1 err st2 :
    attempt E chain contractAddress s st = (st1, Throw err) ->
    AllFail E chain contractAddress ss
      (logged (failureLog chain contractAddress s err) st1) st2 ->
    AllFail E chain contractAddress (s :: ss) st st2.

(** The name [matchBytecodeToAddress] gives the chain in its messages. *)
Definition chainNameOf (c : InjectorChain) : string :=
  if truthy (name c) then text (name c) else "The chain".

(** The lower-case hex digits of a byte string, two to a byte. *)
Fixpoint hexDigits (bytes : list byte) : string :=
  match bytes with
  | [] => EmptyString
  | b :: rest =>
      let n := N.to_nat (Byte.to_N b) in
      String.substring (n / 16) 1 "0123456789abcdef"
        ++ String.substring (n mod 16) 1 "0123456789abcdef"
        ++ hexDigits rest
  end.

(** The file-service calls of [storeSources]. *)
Definition sourceEvents (matchQuality : option MatchQuality) (chain address : string)
  (sources : list (string * string)) : list Event :=
  List.map (fun source =>
              FsSave (FileTarget matchQuality chain address (Some true)
                        (sanitizePath (fst source)))
                     (snd source))
           sources.

(** The log record written before the code at a candidate is read. *)
Definition retrievalLog (chain address : string) : Event :=
  Log LInfo [("loc", LStr "[MATCH]"); ("chain", LStr chain); ("address", LStr address)]
      (Some "Retrieving contract bytecode address").

(** A comparison that yields no status: it throws, or its result has none. *)
Definition withoutStatus (outcome : Outcome CompareResult.t) : Prop :=
  match outcome with
  | Return compareResult => CompareResult.status compareResult = None
  | Throw _ => True
  end.

(** [Unmatched E chain crb ccb candidates st st']: from [st], the candidates
    are taken in order; each has its address checksummed, its code read and
    compared, and no comparison yields a status; [st'] is the state after
    the last comparison. *)
Inductive Unmatched (E : Env) (chain crb ccb : string)
  : list string -> State (World E) -> State (World E) -> Prop :=
| Unmatched_nil st : Unmatched E chain crb ccb [] st st
| Unmatched_cons candidate rest address deployedBytecode outcome st st1 st2 st3 :
    toChecksumAddress E candidate = Return address ->
    fetchDeployedBytecode E chain address st = (st1, Return deployedBytecode) ->
    compareBytecodes E deployedBytecode None crb ccb chain address st1 = (st2, outcome) ->
    withoutStatus outcome ->
    Unmatched E chain crb ccb rest st2 st3 ->
    Unmatched E chain crb ccb (candidate :: rest) st st3.

(** The log record written when the trailer holds none of the three keys. *)
Definition noHashLog (address chain : string) : Event :=
  Log LError [("loc", LStr "[INJECTOR:GET_METADATA_PATH]");
              ("address", LStr address); ("chain", LStr chain);
              ("err", LStr "No metadata hash in cbor encoded data.")]
      None.

(** The file-service call of [storeConstructorArgs], made for constructor
    arguments that are a string of some length. *)
Definition constructorArgsEvents (matchQuality : option MatchQuality) (chain address : string)
  (encodedConstructorArgs : option string) : list Event :=
  match encodedConstructorArgs with
  | Some args =>
      if args =? "" then []
      else [FsSave (FileTarget matchQuality chain address (Some false) "constructor-args.txt")
                   args]
  | None => []
  end.

(** The file-service calls that follow a match: sources, metadata and
    constructor arguments, all under one quality. *)
Definition artifactEvents (matchQuality : option MatchQuality) (chain address : string)
  (contract : CheckedContract) (compilationResult : RecompilationResult)
  (encodedConstructorArgs : option string) : list Event :=
  (sourceEvents matchQuality chain address (solidity contract)
   ++ [FsSave (FileTarget matchQuality chain address None "metadata.json")
              (metadata compilationResult)]
   ++ constructorArgsEvents matchQuality chain address encodedConstructorArgs)%list.

(** The state [st] with more events on its trace. *)
Definition extended {World : Type} (evs : list Event) (st : State World) : State World :=
  mkState (world st) (trace st ++ evs).

(** The strategies of the chain [Demo.equipped] for the address [Demo.alice]. *)
Definition scrapeAlice : Strategy :=
  Scrape "https://explorer.example/address/0x1111111111111111111111111111111111111111"
    "at txn (0x[a-f0-9]+)" "https://rpc.example".
Definition indexerAlice : Strategy :=
  Indexer "https://indexer.example/graphql" "https://rpc.example".
Definition archiveAlice : Strategy := Archive "https://archive.example".

(** *** Classes of events, and what a computation may emit *)

Definition isLog (ev : Event) : bool :=
  match ev with Log _ _ _ => true | _ => false end.

(** The request of a retrieval strategy. *)
Definition isStrategyCall (ev : Event) : bool :=
  match ev with
  | CallScraping _ _ _ | CallGraphQL _ _ _ | CallArchive _ _ => true
  | _ => false
  end.

Definition isGetBytecode (ev : Event) : bool :=
  match ev with CallGetBytecode _ _ => true | _ => false end.

(** A call of the file service. *)
Definition isFileService (ev : Event) : bool :=
  match ev with FsSave _ _ | FsDeletePartial _ _ => true | _ => false end.

(** The events of the search: log records, requests for code, requests of
    retrieval strategies. *)
Definition searchEvent (ev : Event) : bool :=
  isLog ev || isGetBytecode ev || isStrategyCall ev.

(** A call to the compiler side: completing the sources, compiling. *)
Definition isCompilerCall (ev : Event) : bool :=
  match ev with CallFetchMissing | CallRecompile => true | _ => false end.

(** The error [inject] raises for a match without address or status. *)
Definition unmatchedError (contract : CheckedContract) (m : Match.t) : string :=
  "Contract name: " ++ contractName contract ++ ". "
  ++ (if truthy (Match.message m) then text (Match.message m)
      else "Could not match the deployed and recompiled bytecode.").

(** What [inject] does up to the compiler's result, for an input that is
    valid: the contract is completed when it is not complete, and compiled. *)
Definition prepared (E : Env) (inputData : InputData) (st st2 : State (World E))
  (contract : CheckedContract) (outcome : Outcome RecompilationResult) : Prop :=
  inputAddresses inputData <> [] /\ ~ In None (inputAddresses inputData)
  /\ truthy (inputChain inputData) = true
  /\ exists st1,
       (if isValid E (inputContract inputData) then ret (inputContract inputData)
        else call CallFetchMissing (fetchMissing E (inputContract inputData))) st
       = (st1, Return contract)
       /\ call CallRecompile (recompile E (contractMetadata contract) (solidity contract)) st1
          = (st2, outcome).

(** [Emits P m]: whatever the state [m] is run in and however it ends, the
    trace it leaves is the trace it found followed by events that all
    satisfy [P]. *)
Definition Emits {World A : Type} (P : Event -> bool) (m : M World A) : Prop :=
  forall (st st' : State World) (r : Outcome A),
    m st = (st', r) ->
    exists evs, trace st' = (trace st ++ evs)%list /\ Forall (fun ev => P ev = true) evs.

(** The request a strategy makes for [contractAddress]. *)
Definition requestOf (contractAddress : string) (s : Strategy) : Event :=
  match s with
  | Scrape fetchAddress txRegex web3 => CallScraping fetchAddress txRegex web3
  | Indexer graphQLFetchAddress web3 => CallGraphQL graphQLFetchAddress contractAddress web3
  | Archive archiveWeb3 => CallArchive contractAddress archiveWeb3
  end.

(** What [getCreationData] may emit on the chain [c]: log records, and the
    requests of the strategies [c] is configured for. *)
Definition resolverEvent (c : InjectorChain) (ev : Event) : bool :=
  match ev with
  | Log _ _ _ => true
  | CallScraping _ _ _ => truthy (contractFetchAddress c) && truthy (txRegex c)
  | CallGraphQL _ _ _ => truthy (graphQLFetchAddress c)
  | CallArchive _ _ => match archiveWeb3 c with Some _ => true | None => false end
  | _ => false
  end.

(** Every character of [s] satisfies [p]. *)
Fixpoint allChars (p : ascii -> bool) (s : string) : bool :=
  match s with
  | EmptyString => true
  | String c s' => p c && allChars p s'
  end.

(** No component of the path [s] begins with a dot; [atStart] tells whether
    [s] begins a component. *)
Fixpoint noLeadingDot (atStart : bool) (s : string) : bool :=
  match s with
  | EmptyString => true
  | String c s' =>
      negb (atStart && (c =? ".")%char) && noLeadingDot (c =? "/")%char s'
  end.

(** A match as [matchBytecodeToAddress] starts with: nothing but, at most,
    a message. *)
Definition emptyMatch (m : Match.t) : Prop :=
  Match.address m = None /\ Match.status m = None
  /\ Match.encodedConstructorArgs m = None.

(** ** Strings *)

Lemma prefix_append (p s : string) : String.prefix p (p ++ s) = true.
Proof.
  induction p as [|c p IH]; simpl.
  - now destruct s.
  - destruct (ascii_dec c c) as [_|n]; [exact IH | now elim n].
Qed.

Lemma index_of_prefix (p s : string) :
  String.prefix p s = true -> String.index 0 p s = Some 0.
Proof.
  intros H. destruct s as [|c s]; cbn [String.index].
  - destruct p; [reflexivity | discriminate H].
  - now rewrite H.
Qed.

Lemma substring_all (s : string) : String.substring 0 (String.length s) s = s.
Proof. induction s as [|c s IH]; simpl; [reflexivity | now rewrite IH]. Qed.

Lemma substring_after (p s : string) (n : nat) :
  String.substring (String.length p) n (p ++ s) = String.substring 0 n s.
Proof. induction p as [|c p IH]; simpl; [reflexivity | exact IH]. Qed.

Lemma length_append (p s : string) :
  String.length (p ++ s) = String.length p + String.length s.
Proof. induction p as [|c p IH]; simpl; [reflexivity | now rewrite IH]. Qed.

Lemma slice_after_prefix (p s : string) :
  slice (p ++ s) (Z.of_nat (String.length p)) = s.
Proof.
  unfold slice.
  destruct (Z.ltb_spec (Z.of_nat (String.length p)) 0) as [H|_]; [lia|].
  rewrite length_append.
  replace (Z.to_nat (Z.min (Z.of_nat (String.length p))
                           (Z.of_nat (String.length p + String.length s))))
    with (String.length p) by lia.
  rewrite substring_after.
  replace (String.length p + String.length s - String.length p)
    with (String.length s) by lia.
  apply substring_all.
Qed.

Lemma extract_after_prefix (compiledCreationBytecode suffix : string) :
  extractEncodedConstructorArgs (compiledCreationBytecode ++ suffix) compiledCreationBytecode
  = "0x" ++ suffix.
Proof.
  unfold extractEncodedConstructorArgs, indexOf.
  rewrite (index_of_prefix _ _ (prefix_append _ _)).
  simpl Z.of_nat. rewrite Z.add_0_l. now rewrite slice_after_prefix.
Qed.

Lemma hex_prefixed_length (s : string) :
  startsWith s "0x" = true -> s <> "0x" -> 2 < String.length s.
Proof.
  unfold startsWith. intros H N.
  destruct s as [|a [|b [|c s]]]; cbn [String.prefix String.length] in *.
  - discriminate H.
  - destruct (ascii_dec "0" a); discriminate H.
  - destruct (ascii_dec "0" a) as [<-|]; [|discriminate H].
    destruct (ascii_dec "x" b) as [<-|]; [|discriminate H].
    now elim N.
  - lia.
Qed.

Lemma nonempty_of_length (s : string) (n : nat) :
  n < String.length s -> (s =? "") = false.
Proof. destruct s; simpl; [lia | reflexivity]. Qed.

(** ** The comparison of bytecodes *)

Section Compare.
Context (E : Env).

Local Abbreviation Async := (M (World E)).

(** Past the length gate, [compareBytecodes] is the verdict on the creation
    data it was given or has fetched. *)
Lemma compare_past_gate deployed creationData crb ccb chain address st :
  reachesCreationData E deployed crb ->
  compareBytecodes E (Some deployed) creationData crb ccb chain address st
  = bind (orFetch E creationData (getCreationData E chain address))
      (fun creationData =>
         match creationData with
         | Some creationData =>
             if negb (creationData =? "") then
               if startsWith creationData ccb then
                 ret (CompareResult.mk (Some perfect)
                        (Some (extractEncodedConstructorArgs creationData ccb)))
               else if startsWith creationData (trimMetadata E ccb) then
                 ret (CompareResult.mk (Some partial) None)
               else ret noMatch
             else ret noMatch
         | None => ret noMatch
         end) st.
Proof.
  intros (Hlen & Hne & Htrim & Hsame).
  unfold compareBytecodes.
  rewrite (nonempty_of_length _ _ Hlen).
  apply Nat.ltb_lt in Hlen. rewrite Hlen. simpl andb. cbv iota.
  apply String.eqb_neq in Hne. rewrite Hne.
  apply String.eqb_neq in Htrim. rewrite Htrim.
  apply Nat.eqb_eq in Hsame. rewrite Hsame.
  reflexivity.
Qed.

(** C1. A deployed bytecode that is absent, or is the empty sentinel ["0x"],
    compares as "no match"; a deployed bytecode that is not empty (a
    ["0x"]-prefixed string other than the sentinel) and equal to the compiled
    runtime bytecode compares as ["perfect"], without constructor arguments.
    Neither case touches the state: nothing is fetched or logged. *)
Theorem compare_empty_or_identical
  (deployedBytecode creationData : JsString) (crb ccb chain address : string)
  (st : State (World E)) :
  (deployedBytecode = None \/ deployedBytecode = Some "0x" ->
   compareBytecodes E deployedBytecode creationData crb ccb chain address st
   = (st, Return noMatch))
  /\
  (forall deployed,
     deployedBytecode = Some deployed ->
     startsWith deployed "0x" = true -> deployed <> "0x" ->
     deployed = crb ->
     compareBytecodes E deployedBytecode creationData crb ccb chain address st
     = (st, Return (CompareResult.mk (Some perfect) None))).
Proof.
  split.
  - intros [-> | ->]; reflexivity.
  - intros deployed -> Hpre Hne <-.
    pose proof (hex_prefixed_length _ Hpre Hne) as Hlen.
    unfold compareBytecodes.
    rewrite (nonempty_of_length _ _ Hlen).
    apply Nat.ltb_lt in Hlen. rewrite Hlen.
    rewrite String.eqb_refl. reflexivity.
Qed.

(** C2. Runtime bytecodes whose lengths differ after trimming compare as
    "no match", and the state comes back as it was: no creation data has
    been asked for, and nothing has been logged. *)
Theorem compare_length_gate
  (deployed : string) (creationData : JsString) (crb ccb chain address : string)
  (st : State (World E)) :
  String.length (trimMetadata E deployed) <> String.length (trimMetadata E crb) ->
  compareBytecodes E (Some deployed) creationData crb ccb chain address st
  = (st, Return noMatch).
Proof.
  intros Hlen.
  assert (Htrim : trimMetadata E deployed <> trimMetadata E crb)
    by (intros Heq; apply Hlen; now rewrite Heq).
  assert (Hne : deployed <> crb) by (intros ->; now apply Htrim).
  unfold compareBytecodes.
  destruct (negb (deployed =? "") && (2 <? String.length deployed)%nat); [|reflexivity].
  apply String.eqb_neq in Hne. rewrite Hne.
  apply String.eqb_neq in Htrim. rewrite Htrim.
  apply Nat.eqb_neq in Hlen. rewrite Hlen.
  reflexivity.
Qed.

(** C3. Past the length gate, and with creation data at hand (supplied, or
    fetched when none was supplied) that starts with the whole compiled
    creation bytecode, the comparison is ["perfect"] and the constructor
    arguments are ["0x"] followed by what is left of the creation data after
    that prefix. *)
Theorem compare_creation_prefix
  (deployed : string) (creationData : JsString) (crb ccb chain address suffix : string)
  (st st' : State (World E)) :
  reachesCreationData E deployed crb ->
  orFetch E creationData (getCreationData E chain address) st
  = (st', Return (Some (ccb ++ suffix))) ->
  ccb ++ suffix <> "" ->
  compareBytecodes E (Some deployed) creationData crb ccb chain address st
  = (st', Return (CompareResult.mk (Some perfect) (Some ("0x" ++ suffix)))).
Proof.
  intros Hgate Hdata Hne.
  rewrite (compare_past_gate _ _ _ _ _ _ _ Hgate).
  unfold bind. rewrite Hdata.
  apply String.eqb_neq in Hne. rewrite Hne. simpl negb. cbv iota.
  unfold startsWith. rewrite prefix_append.
  now rewrite extract_after_prefix.
Qed.

End Compare.

(** ** The resolver of creation data *)

Section Resolver.
Context (E : Env).

(** Take the call to an outside function apart by its answer. *)
Ltac answer f :=
  match goal with
  | |- context [f ?a ?b ?c ?w] => destruct (f a b c w) as [? [?|?]]
  | |- context [f ?a ?b ?w] => destruct (f a b w) as [? [?|?]]
  end.

Ltac run_async :=
  unfold attempt, failureLog, exhaustedLog, creationLog, logged;
  unfold returning, tryCatch, bind, call, emit, ret, throw, lift;
  cbn [world trace app].

(** [getCreationData] is "first success" over the configured strategies. *)
Lemma getCreationData_firstSuccess (chain contractAddress : string) (c : InjectorChain)
  (st : State (World E)) :
  chains E chain = Some c ->
  getCreationData E chain contractAddress st
  = firstSuccess E chain contractAddress (configuredStrategies c contractAddress) st.
Proof.
  intros Hc. unfold getCreationData, chainOf, configuredStrategies. rewrite Hc.
  unfold bind at 1. unfold ret at 1. cbv iota.
  destruct (truthy (contractFetchAddress c) && truthy (txRegex c));
    destruct (truthy (graphQLFetchAddress c));
    destruct (archiveWeb3 c) as [a|];
    cbn [app firstSuccess]; run_async;
    repeat (first [ answer (getCreationDataByScraping E)
                  | answer (getCreationDataFromGraphQL E)
                  | answer (getCreationDataFromArchive E) ];
            cbv beta iota; cbn [world trace app]);
    reflexivity.
Qed.

(** Strategies that fail are passed over, their failures logged. *)
Lemma firstSuccess_after_failures (chain contractAddress : string)
  (failed rest : list Strategy) (st st1 : State (World E)) :
  AllFail E chain contractAddress failed st st1 ->
  firstSuccess E chain contractAddress (failed ++ rest) st
  = firstSuccess E chain contractAddress rest st1.
Proof.
  induction 1 as [st|s ss st st1 err st2 Hs _ IH]; [reflexivity|].
  cbn [app firstSuccess]. unfold tryCatch. rewrite Hs.
  unfold bind, emit. exact IH.
Qed.

Lemma firstSuccess_exhausted (chain contractAddress : string) (st : State (World E)) :
  firstSuccess E chain contractAddress [] st
  = (logged (exhaustedLog chain contractAddress) st, Throw "Cannot fetch creation data").
Proof. reflexivity. Qed.

(** When every configured strategy fails (or none is configured), the
    resolver logs that and throws. *)
Lemma getCreationData_exhausted (chain contractAddress : string) (c : InjectorChain)
  (st st1 : State (World E)) :
  chains E chain = Some c ->
  AllFail E chain contractAddress (configuredStrategies c contractAddress) st st1 ->
  getCreationData E chain contractAddress st
  = (logged (exhaustedLog chain contractAddress) st1, Throw "Cannot fetch creation data").
Proof.
  intros Hc Hfail.
  rewrite (getCreationData_firstSuccess _ _ _ _ Hc).
  rewrite <- (app_nil_r (configuredStrategies c contractAddress)).
  rewrite (firstSuccess_after_failures _ _ _ _ _ _ Hfail).
  apply firstSuccess_exhausted.
Qed.

(** Every attempt leaves a mark on the trace, and so does the resolver on a
    chain it knows: a state that comes back unchanged was never handed to
    [getCreationData]. *)
Lemma attempt_leaves_a_mark (chain contractAddress : string) (s : Strategy)
  (st st' : State (World E)) (r : Outcome JsString) :
  attempt E chain contractAddress s st = (st', r) ->
  List.length (trace st) < List.length (trace st').
Proof.
  destruct s as [fetchAddress txRegex web3|graphQLFetchAddress web3|archiveWeb3];
    unfold attempt, bind, emit, call; cbn [world trace].
  - destruct (getCreationDataByScraping E fetchAddress txRegex web3 (world st)) as [w o].
    intros H; injection H as <- _. cbn [trace]. rewrite !length_app. cbn. lia.
  - destruct (getCreationDataFromGraphQL E graphQLFetchAddress contractAddress web3 (world st))
      as [w o].
    intros H; injection H as <- _. cbn [trace]. rewrite !length_app. cbn. lia.
  - destruct (getCreationDataFromArchive E contractAddress archiveWeb3 (world st)) as [w o].
    intros H; injection H as <- _. cbn [trace]. rewrite !length_app. cbn. lia.
Qed.

Lemma firstSuccess_leaves_a_mark (chain contractAddress : string) (ss : list Strategy) :
  forall (st st' : State (World E)) (r : Outcome JsString),
    firstSuccess E chain contractAddress ss st = (st', r) ->
    List.length (trace st) < List.length (trace st').
Proof.
  induction ss as [|s rest IH]; intros st st' r.
  - cbn [firstSuccess]. unfold bind, emit, throw.
    intros H; injection H as <- _. cbn [trace]. rewrite length_app. cbn. lia.
  - cbn [firstSuccess]. unfold tryCatch.
    destruct (attempt E chain contractAddress s st) as [st1 [v|err]] eqn:Hs;
      pose proof (attempt_leaves_a_mark _ _ _ _ _ _ Hs) as Hlt.
    + intros H; injection H as <- _. exact Hlt.
    + unfold bind, emit. intros H. apply IH in H. cbn [trace] in H.
      rewrite length_app in H. cbn in H. lia.
Qed.

Lemma getCreationData_leaves_a_mark (chain contractAddress : string) (c : InjectorChain)
  (st st' : State (World E)) (r : Outcome JsString) :
  chains E chain = Some c ->
  getCreationData E chain contractAddress st = (st', r) ->
  List.length (trace st) < List.length (trace st').
Proof.
  intros Hc. rewrite (getCreationData_firstSuccess _ _ _ _ Hc).
  apply firstSuccess_leaves_a_mark.
Qed.

(** C5, as the code has it.  The configured strategies are attempted in the
    fixed order scrape, indexer, archive search.  A strategy that throws is
    logged and passed over; the first strategy whose request returns decides
    the creation data, whatever it returns, and no later strategy is
    attempted: the state [st2] in which the resolver ends is the state in
    which that request ended. *)
Theorem first_returning_strategy_wins
  (chain contractAddress : string) (c : InjectorChain)
  (failed : list Strategy) (s : Strategy) (rest : list Strategy)
  (st st1 st2 : State (World E)) (v : JsString) :
  chains E chain = Some c ->
  configuredStrategies c contractAddress = (failed ++ s :: rest)%list ->
  AllFail E chain contractAddress failed st st1 ->
  attempt E chain contractAddress s st1 = (st2, Return v) ->
  getCreationData E chain contractAddress st = (st2, Return v).
Proof.
  intros Hc Hconf Hfail Hs.
  rewrite (getCreationData_firstSuccess _ _ _ _ Hc), Hconf.
  rewrite (firstSuccess_after_failures _ _ _ _ _ _ Hfail).
  cbn [firstSuccess]. unfold tryCatch. now rewrite Hs.
Qed.

(** When no strategy is configured for the chain, or every configured
    strategy throws, [getCreationData] throws and [compareBytecodes] lets
    the error through to its caller.  In [matchBytecodeToAddress] the error
    is caught: the turn of the loop for that candidate ends without an
    error and without a match (a sole candidate gets the message "There
    were problems ..."), and the loop goes on. *)
Theorem creation_data_failure_is_caught
  (chain address : string) (c : InjectorChain) (deployed crb ccb : string)
  (st st1 : State (World E)) :
  chains E chain = Some c ->
  AllFail E chain address (configuredStrategies c address) st st1 ->
  reachesCreationData E deployed crb ->
  compareBytecodes E (Some deployed) None crb ccb chain address st
  = (logged (exhaustedLog chain address) st1, Throw "Cannot fetch creation data")
  /\
  forall (n : nat) (chainName candidate : string) (match_ : Match.t) (st0 : State (World E)),
    toChecksumAddress E candidate = Return address ->
    fetchDeployedBytecode E chain address st0 = (st, Return (Some deployed)) ->
    tryAddress E n chain chainName crb ccb candidate match_ st0
    = (logged (exhaustedLog chain address) st1,
       Return (if (n =? 1)%nat
               then withMessage match_
                      "There were problems during contract verification. Please try again in a minute."
               else match_,
               false)).
Proof.
  intros Hc Hfail Hgate.
  assert (Hcmp : compareBytecodes E (Some deployed) None crb ccb chain address st
                 = (logged (exhaustedLog chain address) st1,
                    Throw "Cannot fetch creation data")).
  { rewrite (compare_past_gate _ _ _ _ _ _ _ _ Hgate).
    unfold bind, orFetch. cbn [truthy].
    now rewrite (getCreationData_exhausted _ _ _ _ _ Hc Hfail). }
  split; [exact Hcmp|].
  intros n chainName candidate match_ st0 Hsum Hcode.
  unfold tryAddress, bind, lift. rewrite Hsum. cbv iota. rewrite Hcode. cbv iota.
  unfold tryCatch, bind. rewrite Hcmp. unfold ret.
  destruct (n =? 1)%nat; reflexivity.
Qed.

End Resolver.

(** ** The search over candidate addresses *)

Section Orchestrator.
Context (E : Env).

(** Reading the code at an address never throws. *)
Lemma fetchDeployedBytecode_returns (chain address : string) (st : State (World E)) :
  exists st1 deployedBytecode,
    fetchDeployedBytecode E chain address st = (st1, Return deployedBytecode).
Proof.
  unfold fetchDeployedBytecode, tryCatch, bind, emit, chainOf, call, ret, throw.
  destruct (chains E chain) as [c|]; cbn [world trace].
  - destruct (getBytecode E (web3 c) address (world st)) as [w [v|e]]; eauto.
  - eauto.
Qed.

(** A turn of the loop ends in [break] exactly with a match that has a
    status; a turn that does not, under several candidates, leaves [match]
    as it was. *)
Lemma tryAddress_outcome (n : nat) (chain chainName crb ccb address : string)
  (match_ m' : Match.t) (broke : bool) (st st' : State (World E)) :
  tryAddress E n chain chainName crb ccb address match_ st = (st', Return (m', broke)) ->
  (broke = true -> Match.status m' <> None)
  /\ (broke = false -> n <> 1 -> m' = match_).
Proof.
  unfold tryAddress, bind, lift.
  destruct (toChecksumAddress E address) as [a'|e]; [|discriminate].
  destruct (fetchDeployedBytecode E chain a' st) as [st1 [dep|e]]; [|discriminate].
  unfold tryCatch, bind, ret.
  destruct (compareBytecodes E dep None crb ccb chain a' st1) as [st2 [[[s|] args]|e]];
    destruct (Nat.eqb_spec n 1) as [Hn|Hn]; cbn [andb];
    try destruct (negb (truthy (Match.message _)));
    intros H; injection H as <- <- <-; split; intros; cbn [Match.status];
    congruence.
Qed.

(** Under several candidates (or none), a loop that was not left by [break]
    hands back the [match] it started from; a loop left by [break] hands
    back a match that has a status. *)
Lemma forAddresses_outcome (n : nat) (chain chainName crb ccb : string)
  (addresses : list string) :
  forall (match_ m' : Match.t) (broke : bool) (st st' : State (World E)),
    forAddresses E n chain chainName crb ccb addresses match_ st
    = (st', Return (m', broke)) ->
    (broke = true -> Match.status m' <> None)
    /\ (broke = false -> n <> 1 -> m' = match_).
Proof.
  induction addresses as [|a rest IH]; intros match_ m' broke st st'.
  - cbn [forAddresses]. unfold ret. intros H; injection H as <- <- <-.
    split; intros; congruence.
  - cbn [forAddresses]. unfold bind.
    destruct (tryAddress E n chain chainName crb ccb a match_ st)
      as [st1 [[m1 b1]|e]] eqn:Hturn; [|discriminate].
    destruct (tryAddress_outcome _ _ _ _ _ _ _ _ _ _ _ Hturn) as [Hb Hnb].
    destruct b1.
    + unfold ret. intros H; injection H as <- <- <-.
      split; [intros _; now apply Hb | discriminate].
    + intros H. destruct (IH _ _ _ _ _ H) as [Hb' Hnb'].
      split; [exact Hb'|].
      intros Hf Hn. rewrite (Hnb' Hf Hn). now apply Hnb.
Qed.

(** Candidates that were tried without a match are behind the loop. *)
Lemma forAddresses_app (n : nat) (chain chainName crb ccb : string)
  (tried rest : list string) :
  forall (match_ m1 : Match.t) (st st1 : State (World E)),
    forAddresses E n chain chainName crb ccb tried match_ st = (st1, Return (m1, false)) ->
    forAddresses E n chain chainName crb ccb (tried ++ rest) match_ st
    = forAddresses E n chain chainName crb ccb rest m1 st1.
Proof.
  induction tried as [|a tried IH]; intros match_ m1 st st1.
  - cbn [forAddresses app]. unfold ret. intros H; injection H as <- <-. reflexivity.
  - cbn [forAddresses app]. unfold bind.
    destruct (tryAddress E n chain chainName crb ccb a match_ st)
      as [st' [[m' [|]]|e]]; [discriminate| |discriminate].
    apply IH.
Qed.

(** Under several candidates, a run of candidates without a match leaves
    [match] as it was and does not leave the loop. *)
Lemma forAddresses_unmatched (n : nat) (chain chainName crb ccb : string)
  (tried : list string) (st st1 : State (World E)) (match_ : Match.t) :
  n <> 1 ->
  Unmatched E chain crb ccb tried st st1 ->
  forAddresses E n chain chainName crb ccb tried match_ st = (st1, Return (match_, false)).
Proof.
  intros Hn Hrun.
  induction Hrun as [st|candidate rest address dep outcome st st1 st2 st3
                        Hsum Hcode Hcmp Hnone _ IH]; [reflexivity|].
  cbn [forAddresses]. unfold bind at 1.
  assert (Hturn : tryAddress E n chain chainName crb ccb candidate match_ st
                  = (st2, Return (match_, false))).
  { unfold tryAddress, bind, lift. rewrite Hsum. cbv iota. rewrite Hcode. cbv iota.
    unfold tryCatch, bind. rewrite Hcmp.
    apply Nat.eqb_neq in Hn.
    destruct outcome as [[[s|] args]|e]; cbn in Hnone; try discriminate Hnone;
      unfold ret; rewrite Hn; reflexivity. }
  rewrite Hturn. exact IH.
Qed.

(** C6. The candidates are tried in the order given.  When the candidates
    before [candidate] have been tried and none of their comparisons has
    yielded a status, and the comparison for [candidate] yields one
    (["perfect"] or ["partial"]), the result is the checksummed address of
    that candidate with that status and the constructor arguments of the
    comparison.  The search ends in [st3], the state in which that
    comparison ended: for the candidates after it no code is read and
    nothing is compared. *)
Theorem first_match_wins
  (chain : string) (c : InjectorChain) (crb ccb : string)
  (tried : list string) (candidate : string) (later : list string)
  (st0 st1 st2 st3 : State (World E))
  (address : string) (deployedBytecode : JsString)
  (status : Status) (encodedConstructorArgs : option string) :
  chains E chain = Some c ->
  Unmatched E chain crb ccb tried st0 st1 ->
  toChecksumAddress E candidate = Return address ->
  fetchDeployedBytecode E chain address st1 = (st2, Return deployedBytecode) ->
  compareBytecodes E deployedBytecode None crb ccb chain address st2
  = (st3, Return (CompareResult.mk (Some status) encodedConstructorArgs)) ->
  matchBytecodeToAddress E chain (tried ++ candidate :: later)%list crb ccb st0
  = (st3, Return (Match.mk (Some address) (Some status) encodedConstructorArgs None)).
Proof.
  intros Hc Htried Hsum Hcode Hcmp.
  assert (Hloop :
    forAddresses E (List.length (tried ++ candidate :: later)) chain (chainNameOf c) crb ccb
      tried (Match.mk None None None None) st0
    = (st1, Return (Match.mk None None None None, false))).
  { destruct tried as [|first rest].
    - inversion Htried; subst. reflexivity.
    - apply forAddresses_unmatched; [|exact Htried].
      cbn [List.length app]. rewrite length_app. cbn [List.length]. lia. }
  unfold matchBytecodeToAddress, chainOf. rewrite Hc.
  unfold bind at 1. unfold ret at 1. cbv iota.
  unfold bind. fold (chainNameOf c).
  rewrite (forAddresses_app _ _ _ _ _ _ _ _ _ _ _ Hloop).
  cbn [forAddresses]. unfold bind.
  assert (Hturn :
    tryAddress E (List.length (tried ++ candidate :: later)) chain (chainNameOf c) crb ccb
      candidate (Match.mk None None None None) st1
    = (st3, Return (Match.mk (Some address) (Some status) encodedConstructorArgs None, true))).
  { unfold tryAddress, bind, lift. rewrite Hsum. cbv iota. rewrite Hcode. cbv iota.
    unfold tryCatch, bind. rewrite Hcmp. reflexivity. }
  rewrite Hturn. reflexivity.
Qed.

(** The three messages of [diagnose]. *)
Lemma diagnose_cases (chainName address : string) (deployedBytecode : JsString) :
  (truthy deployedBytecode = false ->
   diagnose chainName address deployedBytecode
   = chainName ++ " is temporarily unavailable.")
  /\ (deployedBytecode = Some "0x" ->
      diagnose chainName address deployedBytecode
      = chainName ++ " does not have a contract deployed at " ++ address ++ ".")
  /\ (truthy deployedBytecode = true -> deployedBytecode <> Some "0x" ->
      diagnose chainName address deployedBytecode
      = "The deployed and recompiled bytecode don't match.").
Proof.
  unfold diagnose. repeat split.
  - now intros ->.
  - now intros ->.
  - intros Ht Hne. rewrite Ht. cbn [negb].
    destruct deployedBytecode as [s|]; [|discriminate Ht]. cbn [text].
    destruct (String.eqb_spec s "0x") as [->|_]; [now elim Hne | reflexivity].
Qed.

(** What a sole candidate that did not match leaves in the message. *)
Lemma sole_candidate_message (chain : string) (c : InjectorChain) (crb ccb candidate : string)
  (st st' : State (World E)) (m : Match.t) :
  chains E chain = Some c ->
  matchBytecodeToAddress E chain [candidate] crb ccb st = (st', Return m) ->
  Match.status m = None ->
  exists address deployedBytecode st1,
    toChecksumAddress E candidate = Return address /\
    fetchDeployedBytecode E chain address st = (st1, Return deployedBytecode) /\
    match snd (compareBytecodes E deployedBytecode None crb ccb chain address st1) with
    | Throw _ =>
        Match.message m
        = Some "There were problems during contract verification. Please try again in a minute."
    | Return _ =>
        Match.message m = Some (diagnose (chainNameOf c) address deployedBytecode)
    end.
Proof.
  intros Hc. unfold matchBytecodeToAddress, chainOf. rewrite Hc.
  unfold bind at 1. unfold ret at 1. cbv iota. fold (chainNameOf c).
  cbn [forAddresses List.length]. unfold tryAddress, bind, lift.
  destruct (toChecksumAddress E candidate) as [address|e]; [|discriminate].
  destruct (fetchDeployedBytecode E chain address st) as [st1 [dep|e]] eqn:Hcode;
    [|discriminate].
  unfold tryCatch, bind, ret.
  destruct (compareBytecodes E dep None crb ccb chain address st1)
    as [st2 [[[s|] args]|e]] eqn:Hcmp; cbn [Nat.eqb andb negb truthy Match.message withMessage fst];
    intros H; injection H as <- <-; cbn [Match.status]; intros Hs; try discriminate Hs;
    exists address, dep, st1; repeat split; try exact Hcode; rewrite Hcmp; reflexivity.
Qed.

(** C7, as the code has it.  A match without a status, handed back by
    [matchBytecodeToAddress], carries a message exactly when one candidate
    address was given.  The message then tells four situations apart: the
    comparison itself raised an error (the creation data could not be
    fetched); the bytecode could not be read; the bytecode is the empty
    sentinel ["0x"]; the bytecode is there and does not match. *)
Theorem diagnostic_iff_sole_candidate
  (chain : string) (c : InjectorChain) (addresses : list string) (crb ccb : string)
  (st st' : State (World E)) (m : Match.t) :
  chains E chain = Some c ->
  matchBytecodeToAddress E chain addresses crb ccb st = (st', Return m) ->
  Match.status m = None ->
  (Match.message m <> None <-> List.length addresses = 1)
  /\
  (forall candidate, addresses = [candidate] ->
   exists address deployedBytecode st1,
     toChecksumAddress E candidate = Return address /\
     fetchDeployedBytecode E chain address st = (st1, Return deployedBytecode) /\
     match snd (compareBytecodes E deployedBytecode None crb ccb chain address st1) with
     | Throw _ =>
         Match.message m
         = Some "There were problems during contract verification. Please try again in a minute."
     | Return _ =>
         (truthy deployedBytecode = false ->
          Match.message m = Some (chainNameOf c ++ " is temporarily unavailable."))
         /\ (deployedBytecode = Some "0x" ->
             Match.message m
             = Some (chainNameOf c ++ " does not have a contract deployed at "
                       ++ address ++ "."))
         /\ (truthy deployedBytecode = true -> deployedBytecode <> Some "0x" ->
             Match.message m = Some "The deployed and recompiled bytecode don't match.")
     end).
Proof.
  intros Hc Hrun Hs.
  assert (Hsole : forall candidate, addresses = [candidate] ->
            exists address deployedBytecode st1,
              toChecksumAddress E candidate = Return address /\
              fetchDeployedBytecode E chain address st = (st1, Return deployedBytecode) /\
              match snd (compareBytecodes E deployedBytecode None crb ccb chain address st1) with
              | Throw _ =>
                  Match.message m
                  = Some "There were problems during contract verification. Please try again in a minute."
              | Return _ =>
                  Match.message m = Some (diagnose (chainNameOf c) address deployedBytecode)
              end).
  { intros candidate ->. exact (sole_candidate_message _ _ _ _ _ _ _ _ Hc Hrun Hs). }
  split.
  - split.
    + intros Hmsg.
      destruct (Nat.eq_dec (List.length addresses) 1) as [|Hn]; [assumption|].
      exfalso. apply Hmsg.
      revert Hrun. unfold matchBytecodeToAddress, chainOf. rewrite Hc.
      unfold bind at 1. unfold ret at 1. cbv iota. unfold bind.
      destruct (forAddresses E (List.length addresses) chain
                  (if truthy (name c) then text (name c) else "The chain")
                  crb ccb addresses (Match.mk None None None None) st)
        as [st1 [[m1 broke]|e]] eqn:Hloop; [|discriminate].
      unfold ret. cbn [fst]. intros H; injection H as <- <-.
      destruct (forAddresses_outcome _ _ _ _ _ _ _ _ _ _ _ Hloop) as [Hb Hnb].
      destruct broke.
      * now elim (Hb eq_refl).
      * now rewrite (Hnb eq_refl Hn).
    + intros Hn.
      destruct addresses as [|candidate [|? ?]]; try discriminate Hn.
      destruct (Hsole candidate eq_refl) as (address & dep & st1 & _ & _ & Hm).
      destruct (snd (compareBytecodes E dep None crb ccb chain address st1));
        rewrite Hm; discriminate.
  - intros candidate Hone.
    destruct (Hsole candidate Hone) as (address & dep & st1 & Hsum & Hcode & Hm).
    exists address, dep, st1. repeat split; try assumption.
    destruct (snd (compareBytecodes E dep None crb ccb chain address st1)); [|exact Hm].
    destruct (diagnose_cases (chainNameOf c) address dep) as (H1 & H2 & H3).
    repeat split; intros; rewrite Hm; f_equal; auto.
Qed.

End Orchestrator.

(** ** The content address *)

Section ContentAddress.
Context (E : Env).

Lemma concat_empty_cons (x : string) (xs : list string) :
  String.concat "" (x :: xs) = x ++ String.concat "" xs.
Proof.
  destruct xs as [|y ys]; cbn [String.concat].
  - induction x as [|ch x IH]; cbn; [reflexivity | now rewrite <- IH].
  - reflexivity.
Qed.

Lemma byte_hex (b : byte) :
  hexDigit (Z.shiftr (Z.of_N (Byte.to_N b)) 4) ++ hexDigit (Z.land (Z.of_N (Byte.to_N b)) 15)
  = String.substring (N.to_nat (Byte.to_N b) / 16) 1 "0123456789abcdef"
      ++ String.substring (N.to_nat (Byte.to_N b) mod 16) 1 "0123456789abcdef".
Proof. destruct b; reflexivity. Qed.

Lemma append_assoc (a b c : string) : (a ++ b) ++ c = a ++ b ++ c.
Proof. induction a as [|ch a IH]; cbn; [reflexivity | now rewrite IH]. Qed.

(** What [bytesToHex(hash).slice(2)] is: the hex digits of the hash. *)
Lemma slice_bytesToHex (hash : list byte) :
  slice (bytesToHex hash) 2 = hexDigits hash.
Proof.
  unfold bytesToHex.
  change 2%Z with (Z.of_nat (String.length "0x")).
  rewrite slice_after_prefix.
  induction hash as [|b rest IH]; [reflexivity|].
  cbn [List.map hexDigits]. rewrite concat_empty_cons, IH, byte_hex.
  now rewrite append_assoc.
Qed.

(** An error of either decoder leaves [getMetadataPathFromCborEncoded] as
    it is: nothing catches it. *)
Lemma decoding_error_propagates (compilationResult : RecompilationResult)
  (address chain : string) (err : JsError) (st : State (World E)) :
  hexToBytes E (deployedBytecode compilationResult) = Throw err
  \/ (exists bytes, hexToBytes E (deployedBytecode compilationResult) = Return bytes
                    /\ cborDecode E bytes = Throw err) ->
  getMetadataPathFromCborEncoded E compilationResult address chain st = (st, Throw err).
Proof.
  unfold getMetadataPathFromCborEncoded, bind, lift.
  intros [H | (bytes & H & H')]; rewrite H; [reflexivity|]. cbv iota. now rewrite H'.
Qed.

(** C8, as the code has it.  When the trailer of the compiled deployed
    bytecode decodes, its keys are looked up in the order [bzzr0], [bzzr1],
    [ipfs], and the first that is present gives the path: [/swarm/bzzr0/]
    or [/swarm/bzzr1/] followed by the hex digits of the hash, or [/ipfs/]
    followed by the base58 form of the hash.  When none of them is present,
    that is logged and the result is [null].  No error is raised. *)
Theorem metadata_path_priority
  (compilationResult : RecompilationResult) (address chain : string)
  (bytes : list byte) (cborData : CborData) (st : State (World E)) :
  hexToBytes E (deployedBytecode compilationResult) = Return bytes ->
  cborDecode E bytes = Return cborData ->
  getMetadataPathFromCborEncoded E compilationResult address chain st
  = match cborData "bzzr0", cborData "bzzr1", cborData "ipfs" with
    | Some hash, _, _ => (st, Return (Some ("/swarm/bzzr0/" ++ hexDigits hash)))
    | None, Some hash, _ => (st, Return (Some ("/swarm/bzzr1/" ++ hexDigits hash)))
    | None, None, Some hash => (st, Return (Some ("/ipfs/" ++ toB58String E hash)))
    | None, None, None => (logged (noHashLog address chain) st, Return None)
    end.
Proof.
  intros Hhex Hcbor.
  unfold getMetadataPathFromCborEncoded, bind, lift. rewrite Hhex. cbv iota.
  rewrite Hcbor. cbv iota.
  destruct (cborData "bzzr0") as [h0|]; [unfold ret; now rewrite slice_bytesToHex|].
  destruct (cborData "bzzr1") as [h1|]; [unfold ret; now rewrite slice_bytesToHex|].
  destruct (cborData "ipfs") as [h2|]; reflexivity.
Qed.

(** A path that was derived is a string that is not empty. *)
Lemma metadata_path_truthy (compilationResult : RecompilationResult)
  (address chain path : string) (st st' : State (World E)) :
  getMetadataPathFromCborEncoded E compilationResult address chain st
  = (st', Return (Some path)) ->
  truthy (Some path) = true.
Proof.
  unfold getMetadataPathFromCborEncoded, bind, lift.
  destruct (hexToBytes E (deployedBytecode compilationResult)) as [bytes|e]; [|discriminate].
  destruct (cborDecode E bytes) as [cborData|e]; [|discriminate].
  destruct (cborData "bzzr0") as [h0|];
    [|destruct (cborData "bzzr1") as [h1|];
      [|destruct (cborData "ipfs") as [h2|]]];
    unfold bind, ret, emit; intros H;
    first [discriminate H | injection H as _ <-; reflexivity].
Qed.

End ContentAddress.

(** ** Storing what was verified *)

Section Storage.
Context (E : Env).

Lemma extended_extended (evs evs' : list Event) (st : State (World E)) :
  extended evs' (extended evs st) = extended (evs ++ evs') st.
Proof. unfold extended. cbn [world trace]. now rewrite app_assoc. Qed.

Lemma extended_nil (st : State (World E)) : extended [] st = st.
Proof. unfold extended. rewrite app_nil_r. now destruct st. Qed.

Lemma emit_extends (ev : Event) (st : State (World E)) :
  emit ev st = (extended [ev] st, Return tt).
Proof. reflexivity. Qed.

Lemma storeSources_events (matchQuality : option MatchQuality) (chain address : string)
  (sources : list (string * string)) (st : State (World E)) :
  storeSources E matchQuality chain address sources st
  = (extended (sourceEvents matchQuality chain address sources) st, Return tt).
Proof.
  revert st. induction sources as [|[sourcePath content] rest IH]; intros st.
  - cbn [storeSources sourceEvents List.map]. now rewrite extended_nil.
  - cbn [storeSources sourceEvents List.map fst snd]. unfold bind.
    rewrite emit_extends, IH, extended_extended. reflexivity.
Qed.

Lemma storeConstructorArgs_events (matchQuality : option MatchQuality) (chain address : string)
  (encodedConstructorArgs : option string) (st : State (World E)) :
  (if truthy encodedConstructorArgs
      && negb (String.length (text encodedConstructorArgs) =? 0)%nat
   then storeConstructorArgs E matchQuality chain address (text encodedConstructorArgs)
   else ret tt) st
  = (extended (constructorArgsEvents matchQuality chain address encodedConstructorArgs) st,
     Return tt).
Proof.
  destruct encodedConstructorArgs as [[|ch args]|]; cbn;
    unfold ret; rewrite ?extended_nil; reflexivity.
Qed.

(** What [inject] does with a match that has an address and a status. *)
Lemma storeMatch_events (chain : string) (addresses : list string)
  (contract : CheckedContract) (compilationResult : RecompilationResult)
  (match_ : Match.t) (address : string) (status : Status)
  (metadataPath : option string) (st st2 : State (World E)) :
  Match.address match_ = Some address -> address <> "" ->
  Match.status match_ = Some status ->
  getMetadataPathFromCborEncoded E compilationResult address chain st
  = (st2, Return metadataPath) ->
  storeMatch E chain addresses contract compilationResult match_ st
  = match metadataPath with
    | Some path =>
        (extended
           ([FsSave (PathTarget path) (metadata compilationResult);
             FsDeletePartial chain address]
            ++ artifactEvents (statusToMatchQuality (Some status)) chain address
                 contract compilationResult (Match.encodedConstructorArgs match_))
           st2,
         Return match_)
    | None =>
        (extended
           (artifactEvents (Some partialQuality) chain address
              contract compilationResult (Match.encodedConstructorArgs match_))
           st2,
         Return (Match.mk (Match.address match_) (Some partial)
                   (Match.encodedConstructorArgs match_) (Match.message match_)))
    end.
Proof.
  intros Haddr Hne Hstatus Hpath.
  unfold storeMatch. rewrite Haddr, Hstatus. cbn [truthy text].
  apply String.eqb_neq in Hne. rewrite Hne. cbn [negb andb].
  unfold bind at 1. rewrite Hpath.
  destruct metadataPath as [path|].
  - rewrite (metadata_path_truthy _ _ _ _ _ _ _ Hpath).
    unfold bind, storeMetadata. rewrite !emit_extends. unfold ret at 1.
    rewrite Hstatus, storeSources_events, emit_extends.
    rewrite storeConstructorArgs_events. unfold ret, artifactEvents.
    rewrite !extended_extended. reflexivity.
  - cbn [truthy]. unfold bind, storeMetadata. unfold ret at 1. cbn [Match.status].
    rewrite storeSources_events, emit_extends.
    cbn [Match.encodedConstructorArgs statusToMatchQuality].
    rewrite storeConstructorArgs_events. unfold ret, artifactEvents.
    rewrite !extended_extended. reflexivity.
Qed.

(** The match [inject] obtains when the bytecode came with the input: the
    status and the constructor arguments are those of the comparison. *)
Lemma obtainMatch_with_bytecode (inputData : InputData) (chain address deployed : string)
  (contract : CheckedContract) (compilationResult : RecompilationResult)
  (compareResult : CompareResult.t) (checkedAddress : string)
  (st st1 st2 st3 : State (World E)) :
  inputChain inputData = Some chain -> chain <> "" ->
  inputAddresses inputData = [Some address] ->
  inputBytecode inputData = Some deployed -> deployed <> "" ->
  (if isValid E (inputContract inputData) then ret (inputContract inputData)
   else call CallFetchMissing (fetchMissing E (inputContract inputData))) st
  = (st1, Return contract) ->
  call CallRecompile (recompile E (contractMetadata contract) (solidity contract)) st1
  = (st2, Return compilationResult) ->
  compareBytecodes E (Some deployed) (inputCreationData inputData)
    (deployedBytecode compilationResult) (bytecode compilationResult) chain address st2
  = (st3, Return compareResult) ->
  toChecksumAddress E address = Return checkedAddress ->
  obtainMatch E inputData st
  = (st3,
     Return (contract, compilationResult,
             Match.mk (Some checkedAddress) (CompareResult.status compareResult)
               (CompareResult.encodedConstructorArgs compareResult) None)).
Proof.
  intros Hchain Hcne Haddrs Hcode Hdne Hcontract Hcompiled Hcmp Hsum.
  unfold obtainMatch. rewrite Hchain, Haddrs, Hcode.
  unfold validateAddresses, validateChain. cbn [List.length Nat.eqb existsb orb truthy text].
  apply String.eqb_neq in Hcne. rewrite Hcne.
  apply String.eqb_neq in Hdne. rewrite Hdne.
  cbn [negb List.map text List.length Nat.eqb List.hd].
  unfold bind at 1. unfold ret at 1. cbv iota.
  unfold bind at 1. unfold ret at 1. cbv iota.
  unfold bind at 1. rewrite Hcontract.
  unfold bind at 1. rewrite Hcompiled.
  unfold bind. rewrite Hcmp. unfold lift. now rewrite Hsum.
Qed.

(** C9. When [inject] has obtained a match with an address and a status:
    if a content-address path is derived, the metadata is saved at that
    path and the partial record of the chain and address is deleted, and
    sources, metadata and constructor arguments are stored under the quality
    of the status; if no path is derived, the status becomes ["partial"],
    whatever the comparison had said, and everything is stored under the
    partial quality. *)
Theorem inject_stores_by_quality
  (inputData : InputData) (contract : CheckedContract)
  (compilationResult : RecompilationResult) (match_ : Match.t)
  (address : string) (status : Status) (metadataPath : option string)
  (st st1 st2 : State (World E)) :
  obtainMatch E inputData st = (st1, Return (contract, compilationResult, match_)) ->
  Match.address match_ = Some address -> address <> "" ->
  Match.status match_ = Some status ->
  getMetadataPathFromCborEncoded E compilationResult address
    (text (inputChain inputData)) st1
  = (st2, Return metadataPath) ->
  inject E inputData st
  = match metadataPath with
    | Some path =>
        (extended
           ([FsSave (PathTarget path) (metadata compilationResult);
             FsDeletePartial (text (inputChain inputData)) address]
            ++ artifactEvents (statusToMatchQuality (Some status))
                 (text (inputChain inputData)) address
                 contract compilationResult (Match.encodedConstructorArgs match_))
           st2,
         Return match_)
    | None =>
        (extended
           (artifactEvents (Some partialQuality) (text (inputChain inputData)) address
              contract compilationResult (Match.encodedConstructorArgs match_))
           st2,
         Return (Match.mk (Match.address match_) (Some partial)
                   (Match.encodedConstructorArgs match_) (Match.message match_)))
    end.
Proof.
  intros Hobtain Haddr Hne Hstatus Hpath.
  unfold inject, bind. rewrite Hobtain.
  exact (storeMatch_events _ _ _ _ _ _ _ _ _ _ Haddr Hne Hstatus Hpath).
Qed.

(** C10. Creation data that is the compiled creation bytecode and nothing
    more compares as ["perfect"] with the constructor arguments ["0x"]; and
    a match that carries the constructor arguments ["0x"] has them stored:
    the last call [inject] makes is the one that saves the file
    [constructor-args.txt] with the content ["0x"], the hex form of no
    bytes at all. *)
Theorem empty_constructor_args_are_stored
  (deployed : string) (creationData : JsString) (crb ccb chain address : string)
  (st st' : State (World E)) :
  (reachesCreationData E deployed crb ->
   orFetch E creationData (getCreationData E chain address) st
   = (st', Return (Some ccb)) ->
   ccb <> "" ->
   compareBytecodes E (Some deployed) creationData crb ccb chain address st
   = (st', Return (CompareResult.mk (Some perfect) (Some "0x"))))
  /\
  (forall (inputData : InputData) (contract : CheckedContract)
          (compilationResult : RecompilationResult) (match_ : Match.t)
          (status : Status) (metadataPath : option string)
          (st0 st1 st2 : State (World E)),
     obtainMatch E inputData st0 = (st1, Return (contract, compilationResult, match_)) ->
     Match.address match_ = Some address -> address <> "" ->
     Match.status match_ = Some status ->
     Match.encodedConstructorArgs match_ = Some "0x" ->
     getMetadataPathFromCborEncoded E compilationResult address
       (text (inputChain inputData)) st1
     = (st2, Return metadataPath) ->
     exists (before : list Event) (matchQuality : option MatchQuality) (m : Match.t),
       inject E inputData st0
       = (mkState (world st2)
            (before
             ++ [FsSave (FileTarget matchQuality (text (inputChain inputData)) address
                           (Some false) "constructor-args.txt")
                        "0x"]),
          Return m)
       /\ matchQuality
          = match metadataPath with
            | Some _ => statusToMatchQuality (Some status)
            | None => Some partialQuality
            end
       /\ Match.encodedConstructorArgs m = Some "0x").
Proof.
  split.
  - intros Hgate Hdata Hne.
    rewrite (compare_past_gate _ _ _ _ _ _ _ _ Hgate).
    unfold bind. rewrite Hdata.
    apply String.eqb_neq in Hne. rewrite Hne. cbn [negb].
    unfold startsWith.
    assert (Hself : ccb ++ "" = ccb)
      by (clear; induction ccb as [|ch s IH]; cbn; [reflexivity | now rewrite IH]).
    pose proof (prefix_append ccb "") as Hprefix.
    pose proof (extract_after_prefix ccb "") as Hargs.
    rewrite Hself in Hprefix, Hargs. now rewrite Hprefix, Hargs.
  - intros inputData contract compilationResult match_ status metadataPath st0 st1 st2
           Hobtain Haddr Hne Hstatus Hargs Hpath.
    unfold inject, bind. rewrite Hobtain.
    rewrite (storeMatch_events _ _ _ _ _ _ _ _ _ _ Haddr Hne Hstatus Hpath).
    unfold extended, artifactEvents. rewrite Hargs. cbn [constructorArgsEvents String.eqb].
    destruct metadataPath as [path|]; rewrite !app_assoc; eexists _, _, _;
      (split; [reflexivity | split; [reflexivity|]]);
      [exact Hargs | reflexivity].
Qed.

End Storage.

(** ** Runs in the small world *)

Module Runs.
Import Demo.

(** The stand-ins behave: the base-58 form of the SHA-256 multihash of the
    empty input, a trailer that is trimmed, and paths that are sanitized. *)
Example toB58String_empty_input :
  option_map toB58String
    (hexPairs "1220e3b0c44298fc1c149afbf4c8996fb92427ae41e4649b934ca495991b7852b855")
  = Some "QmdfTbBqBPQ7VNxZEYEj14VmRuZBkqFbiwReogJgS1zR1n".
Proof. vm_compute. reflexivity. Qed.

Example trimMetadata_trailer :
  trimMetadata runtimeWithTrailer = runtimeBare
  /\ trimMetadata runtimeBare = runtimeBare.
Proof. split; vm_compute; reflexivity. Qed.

Example sanitizePath_samples :
  sanitizePath "contracts/My Token.sol" = "contracts/My_Token.sol"
  /\ sanitizePath "../secret" = "_secret"
  /\ sanitizePath "a/../b/../c" = "a_b/../c"
  /\ sanitizePath "lib/.hidden/x.sol" = "lib/.hidden/x.sol".
Proof. repeat split; vm_compute; reflexivity. Qed.

(** C1 at work: a bytecode that equals the compiled one. *)
Lemma compare_empty_or_identical_run :
  startsWith runtimeBare "0x" = true /\ runtimeBare <> "0x"
  /\ compareBytecodes (env noStrategy) (Some runtimeBare) None runtimeBare "0x6060" "1" alice start
     = (start, Return (CompareResult.mk (Some perfect) None))
  /\ compareBytecodes (env noStrategy) (Some "0x") None runtimeBare "0x6060" "1" alice start
     = (start, Return noMatch).
Proof.
  split; [reflexivity|]. split; [discriminate|]. split.
  - apply (proj2 (compare_empty_or_identical (env noStrategy) (Some runtimeBare) None
                    runtimeBare "0x6060" "1" alice start) runtimeBare);
      [reflexivity | reflexivity | discriminate | reflexivity].
  - apply (proj1 (compare_empty_or_identical (env noStrategy) (Some "0x") None
                    runtimeBare "0x6060" "1" alice start)).
    right. reflexivity.
Defined.

(** C2 at work: the trimmed lengths differ, and the trace stays empty. *)
Lemma compare_length_gate_run :
  String.length (trimMetadata "0x600160005500") <> String.length (trimMetadata runtimeWithTrailer)
  /\ compareBytecodes (env archiveDelivers) (Some "0x600160005500") None runtimeWithTrailer
       "0x6060" "1" alice start
     = (start, Return noMatch).
Proof.
  assert (H : String.length (trimMetadata "0x600160005500")
              <> String.length (trimMetadata runtimeWithTrailer))
    by (vm_compute; discriminate).
  split; [exact H|].
  exact (compare_length_gate (env archiveDelivers) "0x600160005500" None runtimeWithTrailer
           "0x6060" "1" alice start H).
Defined.

Lemma gate_passed :
  reachesCreationData (env noArguments) runtimeOther runtimeWithTrailer.
Proof.
  unfold reachesCreationData.
  repeat split; vm_compute; first [lia | discriminate | reflexivity].
Defined.

(** C3 at work: the creation data carries two bytes of arguments. *)
Lemma compare_creation_prefix_run :
  compareBytecodes (env noArguments) (Some runtimeOther) (Some "0x6060abcd")
    runtimeWithTrailer "0x6060" "1" alice start
  = (start, Return (CompareResult.mk (Some perfect) (Some "0xabcd"))).
Proof.
  apply (compare_creation_prefix (env noArguments) runtimeOther (Some "0x6060abcd")
           runtimeWithTrailer "0x6060" "1" alice "abcd" start start gate_passed).
  - reflexivity.
  - discriminate.
Defined.

(** C4.  With no strategy configured the comparison should come back with
    "no match" (so C4 has it, and so the comments of [getCreationData],
    "[null] otherwise", and of [compareBytecodes]); the code throws instead.
    Here the deployed code differs from the compiled code in content, not
    in length, and no creation data is supplied: [compareBytecodes] ends in
    the error of [getCreationData], and [inject], handed the bytecode with
    the input, ends in that same bare error, without the name of the
    contract and without the log record of a failed match. *)
Lemma missing_creation_data_escapes :
  configuredStrategies bare alice = []
  /\ compareBytecodes (env noStrategy) (Some "0x6001") None "0x6002" "0x6060" "1" alice start
     = (logged (exhaustedLog "1" alice) start, Throw "Cannot fetch creation data")
  /\ snd (compareBytecodes (env noStrategy) (Some "0x6001") None "0x6002" "0x6060"
            "1" alice start)
     <> Return noMatch
  /\ inject (env noStrategy)
       (mkInput (Some "1") [Some alice] contract (Some "0x6001") None) start
     = (mkState tt [CallRecompile; exhaustedLog "1" alice],
        Throw "Cannot fetch creation data").
Proof.
  split; [reflexivity|].
  split; [vm_compute; reflexivity|].
  split; [vm_compute; discriminate | vm_compute; reflexivity].
Qed.

(** Every strategy fails, the comparison throws, and the turn of the loop
    ends without an error. *)
Lemma creation_data_failure_is_caught_run :
  snd (compareBytecodes (env allFail) (Some "0x6001") None "0x6002" "0x6060" "1" alice
         (logged (CallGetBytecode "https://rpc.example" alice)
            (logged (retrievalLog "1" alice) start)))
  = Throw "Cannot fetch creation data"
  /\ snd (tryAddress (env allFail) 1 "1" "Ethereum Mainnet" "0x6002" "0x6060" alice
            (Match.mk None None None None) start)
     = Return (Match.mk None None None
                 (Some "There were problems during contract verification. Please try again in a minute."),
               false).
Proof.
  assert (Hfail : exists st1,
            AllFail (env allFail) "1" alice [scrapeAlice; indexerAlice; archiveAlice]
              (logged (CallGetBytecode "https://rpc.example" alice)
                 (logged (retrievalLog "1" alice) start)) st1).
  { eexists.
    eapply AllFail_cons; [reflexivity|].
    eapply AllFail_cons; [reflexivity|].
    eapply AllFail_cons; [reflexivity|].
    apply AllFail_nil. }
  destruct Hfail as [st1 Hfail].
  assert (Hgate : reachesCreationData (env allFail) "0x6001" "0x6002")
    by (unfold reachesCreationData; repeat split; vm_compute;
        first [lia | discriminate | reflexivity]).
  destruct (creation_data_failure_is_caught (env allFail) "1" alice equipped
              "0x6001" "0x6002" "0x6060" _ st1 eq_refl Hfail Hgate) as [Hcmp Hturn].
  split.
  - now rewrite Hcmp.
  - rewrite (Hturn 1 "Ethereum Mainnet" alice (Match.mk None None None None) start
               eq_refl eq_refl).
    reflexivity.
Defined.

(** C5 does not hold as the specification words it: scraping comes back
    with an empty string and does not throw; the resolver hands that back
    and never asks the indexer, which would have delivered. *)
Lemma empty_result_is_final :
  scraped emptyScrape = Return (Some "")
  /\ indexed emptyScrape = Return (Some "0x6060abcd")
  /\ getCreationData (env emptyScrape) "1" alice start
     = (mkState tt
          [creationLog LInfo "1" alice
             [("fetchAddress",
               LStr "https://explorer.example/address/0x1111111111111111111111111111111111111111")]
             (Some "Scraping block explorer");
           CallScraping
             "https://explorer.example/address/0x1111111111111111111111111111111111111111"
             "at txn (0x[a-f0-9]+)" "https://rpc.example"],
        Return (Some ""))
  /\ snd (getCreationData (env emptyScrape) "1" alice start) <> Return (Some "0x6060abcd").
Proof.
  split; [reflexivity|]. split; [reflexivity|].
  split; [vm_compute; reflexivity | vm_compute; discriminate].
Qed.

(** C5, as the code has it, at work: scraping and the indexer throw, the
    archive search returns, and its result is the creation data; the two
    failures are on the trace as log records. *)
Lemma first_returning_strategy_wins_run :
  getCreationData (env archiveDelivers) "1" alice start
  = (mkState tt
       [creationLog LInfo "1" alice
          [("fetchAddress",
            LStr "https://explorer.example/address/0x1111111111111111111111111111111111111111")]
          (Some "Scraping block explorer");
        CallScraping
          "https://explorer.example/address/0x1111111111111111111111111111111111111111"
          "at txn (0x[a-f0-9]+)" "https://rpc.example";
        failureLog "1" alice scrapeAlice "captcha";
        CallGraphQL "https://indexer.example/graphql" alice "https://rpc.example";
        failureLog "1" alice indexerAlice "timeout";
        creationLog LInfo "1" alice [] (Some "Fetching archive data");
        CallArchive alice "https://archive.example"],
     Return (Some "0x6060abcd")).
Proof.
  eapply (first_returning_strategy_wins (env archiveDelivers) "1" alice equipped
            [scrapeAlice; indexerAlice] archiveAlice [] start _ _ _ eq_refl eq_refl).
  - eapply AllFail_cons; [reflexivity|].
    eapply AllFail_cons; [reflexivity|].
    apply AllFail_nil.
  - reflexivity.
Defined.

(** C6 at work: three candidates, the second matches; the code at the
    third is never read. *)
Lemma first_match_wins_run :
  matchBytecodeToAddress (env bobMatches) "1" [alice; bob; carol] runtimeWithTrailer
    "0x6060" start
  = (mkState tt
       [retrievalLog "1" alice; CallGetBytecode "https://rpc.example" alice;
        retrievalLog "1" bob; CallGetBytecode "https://rpc.example" bob],
     Return (Match.mk (Some bob) (Some perfect) None None)).
Proof.
  eapply (first_match_wins (env bobMatches) "1" bare runtimeWithTrailer "0x6060"
            [alice] bob [carol] start _ _ _ bob _ perfect None eq_refl).
  - eapply Unmatched_cons;
      [reflexivity | reflexivity | cbv; reflexivity | reflexivity | apply Unmatched_nil].
  - reflexivity.
  - reflexivity.
  - reflexivity.
Defined.

(** C7 does not hold as the specification words it: one candidate, its
    bytecode is there and is not the compiled one, and yet the message is
    none of the three: the comparison had thrown for want of creation
    data. *)
Lemma sole_candidate_fourth_message :
  codeAt noStrategy alice = Return (Some "0x6001")
  /\ snd (matchBytecodeToAddress (env noStrategy) "1" [alice] "0x6002" "0x6060" start)
     = Return (Match.mk None None None
                 (Some "There were problems during contract verification. Please try again in a minute."))
  /\ snd (matchBytecodeToAddress (env noStrategy) "1" [alice] "0x6002" "0x6060" start)
     <> Return (Match.mk None None None
                  (Some (diagnose "Ethereum Mainnet" alice (Some "0x6001")))).
Proof.
  split; [reflexivity|].
  split; [vm_compute; reflexivity | vm_compute; discriminate].
Qed.

(** C7, as the code has it, at work: nothing is deployed at the one
    candidate, and the message says so. *)
Lemma diagnostic_iff_sole_candidate_run :
  let m := Match.mk None None None
             (Some "Ethereum Mainnet does not have a contract deployed at 0x1111111111111111111111111111111111111111.") in
  snd (matchBytecodeToAddress (env nothingDeployed) "1" [alice] runtimeWithTrailer
         "0x6060" start)
  = Return m
  /\ (Match.message m <> None <-> List.length [alice] = 1).
Proof.
  intros m.
  assert (Hrun : matchBytecodeToAddress (env nothingDeployed) "1" [alice] runtimeWithTrailer
                   "0x6060" start
                 = (fst (matchBytecodeToAddress (env nothingDeployed) "1" [alice]
                           runtimeWithTrailer "0x6060" start),
                    Return m))
    by (vm_compute; reflexivity).
  split.
  - rewrite Hrun. reflexivity.
  - exact (proj1 (diagnostic_iff_sole_candidate (env nothingDeployed) "1" bare [alice]
                    runtimeWithTrailer "0x6060" start _ m eq_refl Hrun eq_refl)).
Defined.

(** C8 does not hold as the specification words it: a compiled bytecode
    without a trailer cannot be decoded, and the error is raised, not
    turned into [null]. *)
Lemma undecodable_trailer_raises :
  hexToBytes runtimeBare = Return [x60; x01; x60; x00; x55]
  /\ cborDecode [x60; x01; x60; x00; x55] = Throw "Insufficient data"
  /\ getMetadataPathFromCborEncoded (env noStrategy) (artifact runtimeBare) alice "1" start
     = (start, Throw "Insufficient data")
  /\ snd (getMetadataPathFromCborEncoded (env noStrategy) (artifact runtimeBare) alice "1"
            start)
     <> Return None.
Proof.
  split; [vm_compute; reflexivity|]. split; [vm_compute; reflexivity|].
  split; [vm_compute; reflexivity | vm_compute; discriminate].
Qed.

(** C8, as the code has it, at work: a trailer with an [ipfs] hash. *)
Lemma metadata_path_priority_run :
  getMetadataPathFromCborEncoded (env noStrategy) (artifact runtimeWithTrailer) alice "1" start
  = (start,
     Return (Some "/ipfs/QmZq87K9iyjYkVPjojxqhui32esRXGzvU4cNLBcXvabgWC")).
Proof.
  pose (bytes := match hexToBytes runtimeWithTrailer with
                 | Return bytes => bytes
                 | Throw _ => []
                 end).
  pose (cborData := match cborDecode bytes with
                    | Return cborData => cborData
                    | Throw _ => fun _ => None
                    end).
  assert (Hhex : hexToBytes runtimeWithTrailer = Return bytes) by (vm_compute; reflexivity).
  assert (Hcbor : cborDecode bytes = Return cborData) by (vm_compute; reflexivity).
  rewrite (metadata_path_priority (env noStrategy) (artifact runtimeWithTrailer) alice "1"
             bytes cborData start Hhex Hcbor).
  vm_compute. reflexivity.
Defined.

(** C9 at work: the second of two candidates matches as it is; the metadata
    goes to the content address, the partial record goes, and sources and
    metadata are stored as a full match. *)
Lemma inject_stores_by_quality_run :
  let input := mkInput (Some "1") [Some alice; Some bob] contract None None in
  inject (env bobMatches) input start
  = (extended
       ([FsSave (PathTarget "/ipfs/QmZq87K9iyjYkVPjojxqhui32esRXGzvU4cNLBcXvabgWC")
                "{}";
         FsDeletePartial "1" bob]
        ++ [FsSave (FileTarget (Some full) "1" bob (Some true) "contracts/A.sol")
                   "contract A {}";
            FsSave (FileTarget (Some full) "1" bob None "metadata.json") "{}"])
       (fst (obtainMatch (env bobMatches) input start)),
     Return (Match.mk (Some bob) (Some perfect) None None)).
Proof.
  intros input.
  assert (Hobtain : obtainMatch (env bobMatches) input start
                    = (fst (obtainMatch (env bobMatches) input start),
                       Return (contract, artifact runtimeWithTrailer,
                               Match.mk (Some bob) (Some perfect) None None)))
    by (vm_compute; reflexivity).
  assert (Hne : bob <> "") by discriminate.
  assert (Hpath : getMetadataPathFromCborEncoded (env bobMatches) (artifact runtimeWithTrailer)
                    bob (text (inputChain input))
                    (fst (obtainMatch (env bobMatches) input start))
                  = (fst (obtainMatch (env bobMatches) input start),
                     Return (Some "/ipfs/QmZq87K9iyjYkVPjojxqhui32esRXGzvU4cNLBcXvabgWC")))
    by (vm_compute; reflexivity).
  exact (inject_stores_by_quality (env bobMatches) input contract (artifact runtimeWithTrailer)
           (Match.mk (Some bob) (Some perfect) None None) bob perfect _ start _ _
           Hobtain eq_refl Hne eq_refl Hpath).
Defined.

(** C10 at work: the monitor hands in the bytecode and a creation data that
    is the compiled creation bytecode; the constructor arguments ["0x"] are
    stored. *)
Lemma empty_constructor_args_are_stored_run :
  let input := mkInput (Some "1") [Some alice] contract (Some runtimeOther) (Some "0x6060") in
  compareBytecodes (env noArguments) (Some runtimeOther) (Some "0x6060") runtimeWithTrailer
    "0x6060" "1" alice start
  = (start, Return (CompareResult.mk (Some perfect) (Some "0x")))
  /\ exists before,
       trace (fst (inject (env noArguments) input start))
       = (before ++ [FsSave (FileTarget (Some full) "1" alice (Some false)
                               "constructor-args.txt")
                            "0x"])%list.
Proof.
  intros input.
  destruct (empty_constructor_args_are_stored (env noArguments) runtimeOther (Some "0x6060")
              runtimeWithTrailer "0x6060" "1" alice start start) as [Hcmp Hstore].
  split.
  - apply Hcmp; [exact gate_passed | reflexivity | discriminate].
  - assert (Hobtain : obtainMatch (env noArguments) input start
                      = (fst (obtainMatch (env noArguments) input start),
                         Return (contract, artifact runtimeWithTrailer,
                                 Match.mk (Some alice) (Some perfect) (Some "0x") None)))
      by (vm_compute; reflexivity).
    assert (Hne : alice <> "") by discriminate.
    assert (Hpath : getMetadataPathFromCborEncoded (env noArguments)
                      (artifact runtimeWithTrailer) alice (text (inputChain input))
                      (fst (obtainMatch (env noArguments) input start))
                    = (fst (obtainMatch (env noArguments) input start),
                       Return (Some "/ipfs/QmZq87K9iyjYkVPjojxqhui32esRXGzvU4cNLBcXvabgWC")))
      by (vm_compute; reflexivity).
    destruct (Hstore input contract (artifact runtimeWithTrailer)
                (Match.mk (Some alice) (Some perfect) (Some "0x") None) perfect _
                start _ _ Hobtain eq_refl Hne eq_refl eq_refl Hpath)
      as (before & matchQuality & m & Hinject & Hquality & _).
    exists before. rewrite Hinject, Hquality. reflexivity.
Defined.

(** When the bytecode comes with the input, a mismatch is not diagnosed:
    the match has one address, no status and no message, and [inject] fails
    with the general message. *)
Lemma mismatch_with_bytecode_is_not_diagnosed :
  snd (inject (env archiveDelivers)
         (mkInput (Some "1") [Some alice] contract (Some "0x600160005500") None) start)
  = Throw "Contract name: A. Could not match the deployed and recompiled bytecode.".
Proof. vm_compute. reflexivity. Qed.

End Runs.

(** ** What the methods emit *)

Section Effects.
Context {World : Type}.

Lemma emits_ret {A} (P : Event -> bool) (a : A) : Emits P (ret (World := World) a).
Proof.
  intros st st' r H. injection H as <- _. exists []. now rewrite app_nil_r.
Qed.

Lemma emits_throw {A} (P : Event -> bool) (e : JsError) :
  Emits P (throw (World := World) (A := A) e).
Proof.
  intros st st' r H. injection H as <- _. exists []. now rewrite app_nil_r.
Qed.

Lemma emits_lift {A} (P : Event -> bool) (o : Outcome A) :
  Emits P (lift (World := World) o).
Proof.
  intros st st' r H. injection H as <- _. exists []. now rewrite app_nil_r.
Qed.

Lemma emits_emit (P : Event -> bool) (ev : Event) :
  P ev = true -> Emits P (emit (World := World) ev).
Proof.
  intros HP st st' r H. injection H as <- _. exists [ev]. split; [reflexivity|].
  now constructor.
Qed.

Lemma emits_call {A} (P : Event -> bool) (ev : Event) (f : World -> World * Outcome A) :
  P ev = true -> Emits P (call ev f).
Proof.
  intros HP st st' r. unfold call. destruct (f (world st)) as [w o].
  intros H. injection H as <- _. exists [ev]. split; [reflexivity|]. now constructor.
Qed.

Lemma emits_bind {A B} (P : Event -> bool) (m : M World A) (k : A -> M World B) :
  Emits P m -> (forall a, Emits P (k a)) -> Emits P (bind m k).
Proof.
  intros Hm Hk st st' r. unfold bind.
  destruct (m st) as [st1 [a|e]] eqn:Hrun; destruct (Hm _ _ _ Hrun) as (evs1 & Ht1 & HP1).
  - intros H. destruct (Hk a _ _ _ H) as (evs2 & Ht2 & HP2).
    exists (evs1 ++ evs2)%list. rewrite Ht2, Ht1, app_assoc. split; [reflexivity|].
    apply Forall_app. now split.
  - intros H. injection H as <- _. now exists evs1.
Qed.

Lemma emits_tryCatch {A} (P : Event -> bool) (m : M World A) (h : JsError -> M World A) :
  Emits P m -> (forall e, Emits P (h e)) -> Emits P (tryCatch m h).
Proof.
  intros Hm Hh st st' r. unfold tryCatch.
  destruct (m st) as [st1 [a|e]] eqn:Hrun; destruct (Hm _ _ _ Hrun) as (evs1 & Ht1 & HP1).
  - intros H. injection H as <- _. now exists evs1.
  - intros H. destruct (Hh e _ _ _ H) as (evs2 & Ht2 & HP2).
    exists (evs1 ++ evs2)%list. rewrite Ht2, Ht1, app_assoc. split; [reflexivity|].
    apply Forall_app. now split.
Qed.

Lemma emits_weaken {A} (P Q : Event -> bool) (m : M World A) :
  (forall ev, P ev = true -> Q ev = true) -> Emits P m -> Emits Q m.
Proof.
  intros HPQ Hm st st' r H. destruct (Hm _ _ _ H) as (evs & Ht & HP).
  exists evs. split; [exact Ht|]. eapply Forall_impl; [|exact HP]. exact HPQ.
Qed.

End Effects.

(** Take a computation apart along its combinators; what is left are the
    side conditions on the events and the calls to other methods. *)
Ltac emits_step :=
  lazymatch goal with
  | |- Emits _ (ret _) => apply emits_ret
  | |- Emits _ (throw _) => apply emits_throw
  | |- Emits _ (lift _) => apply emits_lift
  | |- Emits _ (bind _ _) => apply emits_bind; [|intros ?]
  | |- Emits _ (tryCatch _ _) => apply emits_tryCatch; [|intros ?]
  | |- Emits _ (emit _) => apply emits_emit
  | |- Emits _ (call _ _) => apply emits_call
  | |- Emits _ (if ?b then _ else _) => destruct b eqn:?
  | |- Emits _ (match ?x with _ => _ end) => destruct x eqn:?
  end.

(** ** More on the comparison of bytecodes *)

Section CompareMore.
Context (E : Env).

(** The guard of [compareBytecodes] is on the length: a deployed bytecode
    of at most two characters is "no match" whatever it holds, even when it
    is the compiled bytecode itself. *)
Theorem compare_short_bytecode
  (deployed : string) (creationData : JsString) (crb ccb chain address : string)
  (st : State (World E)) :
  String.length deployed <= 2 ->
  compareBytecodes E (Some deployed) creationData crb ccb chain address st
  = (st, Return noMatch).
Proof.
  intros Hlen. unfold compareBytecodes.
  apply Nat.ltb_ge in Hlen. rewrite Hlen. now rewrite andb_false_r.
Qed.

(** Bytecodes that differ, but not once their trailers are trimmed, are a
    ["partial"] match without constructor arguments; no creation data is
    asked for. *)
Theorem compare_trimmed_runtime_match
  (deployed : string) (creationData : JsString) (crb ccb chain address : string)
  (st : State (World E)) :
  2 < String.length deployed ->
  deployed <> crb ->
  trimMetadata E deployed = trimMetadata E crb ->
  compareBytecodes E (Some deployed) creationData crb ccb chain address st
  = (st, Return (CompareResult.mk (Some partial) None)).
Proof.
  intros Hlen Hne Htrim. unfold compareBytecodes.
  rewrite (nonempty_of_length _ _ Hlen).
  apply Nat.ltb_lt in Hlen. rewrite Hlen. cbn [negb andb].
  apply String.eqb_neq in Hne. rewrite Hne.
  rewrite Htrim, String.eqb_refl. reflexivity.
Qed.

(** Past the length gate, creation data that does not start with the
    compiled creation bytecode but does start with its trimmed form is a
    ["partial"] match, and no constructor arguments are extracted. *)
Theorem compare_trimmed_creation_prefix
  (deployed : string) (creationData : JsString) (crb ccb chain address data : string)
  (st st' : State (World E)) :
  reachesCreationData E deployed crb ->
  orFetch E creationData (getCreationData E chain address) st = (st', Return (Some data)) ->
  data <> "" ->
  startsWith data ccb = false ->
  startsWith data (trimMetadata E ccb) = true ->
  compareBytecodes E (Some deployed) creationData crb ccb chain address st
  = (st', Return (CompareResult.mk (Some partial) None)).
Proof.
  intros Hgate Hdata Hne Hfull Htrimmed.
  rewrite (compare_past_gate _ _ _ _ _ _ _ _ Hgate).
  unfold bind. rewrite Hdata.
  apply String.eqb_neq in Hne. rewrite Hne. cbn [negb].
  now rewrite Hfull, Htrimmed.
Qed.

(** Past the length gate, creation data that is missing ([null] or empty,
    also when that is what a strategy returned), or that starts with neither
    the compiled creation bytecode nor its trimmed form, is "no match". *)
Theorem compare_creation_mismatch
  (deployed : string) (creationData data : JsString) (crb ccb chain address : string)
  (st st' : State (World E)) :
  reachesCreationData E deployed crb ->
  orFetch E creationData (getCreationData E chain address) st = (st', Return data) ->
  truthy data = false
  \/ (startsWith (text data) ccb = false
      /\ startsWith (text data) (trimMetadata E ccb) = false) ->
  compareBytecodes E (Some deployed) creationData crb ccb chain address st
  = (st', Return noMatch).
Proof.
  intros Hgate Hdata Hcase.
  rewrite (compare_past_gate _ _ _ _ _ _ _ _ Hgate).
  unfold bind. rewrite Hdata.
  destruct data as [data|]; [|reflexivity].
  destruct Hcase as [Hfalsy | [Hfull Htrimmed]].
  - cbn [truthy] in Hfalsy. now rewrite Hfalsy.
  - cbn [text] in Hfull, Htrimmed. rewrite Hfull, Htrimmed.
    now destruct (negb (data =? "")).
Qed.

Lemma compare_result_shape
  (deployedBytecode creationData : JsString) (crb ccb chain address : string)
  (st st' : State (World E)) (result : CompareResult.t) :
  compareBytecodes E deployedBytecode creationData crb ccb chain address st
  = (st', Return result) ->
  forall args, CompareResult.encodedConstructorArgs result = Some args ->
    CompareResult.status result = Some perfect /\ startsWith args "0x" = true.
Proof.
  unfold compareBytecodes.
  destruct deployedBytecode as [deployed|];
    [|intros H; injection H as _ <-; discriminate].
  destruct (negb (deployed =? "") && (2 <? String.length deployed)%nat);
    [|intros H; injection H as _ <-; discriminate].
  destruct (deployed =? crb); [intros H; injection H as _ <-; discriminate|].
  destruct (trimMetadata E deployed =? trimMetadata E crb);
    [intros H; injection H as _ <-; discriminate|].
  destruct (String.length (trimMetadata E deployed) =? String.length (trimMetadata E crb))%nat;
    [|intros H; injection H as _ <-; discriminate].
  unfold bind.
  destruct (orFetch E creationData (getCreationData E chain address) st)
    as [st1 [[data|]|e]]; [| |discriminate].
  - destruct (negb (data =? "")); [|intros H; injection H as _ <-; discriminate].
    destruct (startsWith data ccb).
    + intros H; injection H as _ <-. intros args Hargs. injection Hargs as <-.
      split; [reflexivity|]. unfold extractEncodedConstructorArgs, startsWith.
      apply prefix_append.
    + destruct (startsWith data (trimMetadata E ccb));
        intros H; injection H as _ <-; discriminate.
  - intros H; injection H as _ <-; discriminate.
Qed.

(** Constructor arguments come with a ["perfect"] match only, and they are
    a ["0x"] string; a ["partial"] match and a "no match" carry none. *)
Theorem compare_arguments_only_when_perfect
  (deployedBytecode creationData : JsString) (crb ccb chain address : string)
  (st st' : State (World E)) (result : CompareResult.t) :
  compareBytecodes E deployedBytecode creationData crb ccb chain address st
  = (st', Return result) ->
  forall args, CompareResult.encodedConstructorArgs result = Some args ->
    CompareResult.status result = Some perfect /\ startsWith args "0x" = true.
Proof. exact (compare_result_shape _ _ _ _ _ _ _ _ _). Qed.

(** With creation data supplied, [compareBytecodes] asks for nothing and
    cannot fail: it returns in the state it was called in. *)
Theorem compare_with_creation_data_is_pure
  (deployedBytecode : JsString) (creationData : string) (crb ccb chain address : string)
  (st : State (World E)) :
  creationData <> "" ->
  exists result,
    compareBytecodes E deployedBytecode (Some creationData) crb ccb chain address st
    = (st, Return result).
Proof.
  intros Hne. apply String.eqb_neq in Hne.
  unfold compareBytecodes, bind, orFetch. cbn [truthy]. rewrite Hne. cbn [negb].
  unfold ret.
  destruct deployedBytecode as [deployed|]; [|(cbv beta iota; rewrite ?Hne; cbn [negb]; eexists; reflexivity)].
  destruct (negb (deployed =? "") && (2 <? String.length deployed)%nat); [|(cbv beta iota; rewrite ?Hne; cbn [negb]; eexists; reflexivity)].
  destruct (deployed =? crb); [(cbv beta iota; rewrite ?Hne; cbn [negb]; eexists; reflexivity)|].
  destruct (trimMetadata E deployed =? trimMetadata E crb); [(cbv beta iota; rewrite ?Hne; cbn [negb]; eexists; reflexivity)|].
  destruct (String.length (trimMetadata E deployed) =? String.length (trimMetadata E crb))%nat;
    [|(cbv beta iota; rewrite ?Hne; cbn [negb]; eexists; reflexivity)].
  destruct (startsWith creationData ccb); [(cbv beta iota; rewrite ?Hne; cbn [negb]; eexists; reflexivity)|].
  destruct (startsWith creationData (trimMetadata E ccb)); (cbv beta iota; rewrite ?Hne; cbn [negb]; eexists; reflexivity).
Qed.

(** An error of [compareBytecodes] is an error of [getCreationData]: the
    comparison had passed the length gate without creation data at hand,
    and the resolver, run in the same state, threw that error. *)
Theorem compare_fails_only_in_resolver
  (deployedBytecode creationData : JsString) (crb ccb chain address : string)
  (st st' : State (World E)) (err : JsError) :
  compareBytecodes E deployedBytecode creationData crb ccb chain address st
  = (st', Throw err) ->
  truthy creationData = false
  /\ (exists deployed, deployedBytecode = Some deployed
                       /\ reachesCreationData E deployed crb)
  /\ getCreationData E chain address st = (st', Throw err).
Proof.
  unfold compareBytecodes.
  destruct deployedBytecode as [deployed|]; [|discriminate].
  destruct (deployed =? "") eqn:Hempty; [discriminate|]. cbn [negb andb].
  destruct (Nat.ltb_spec 2 (String.length deployed)) as [Hlen|_]; [|discriminate].
  destruct (String.eqb_spec deployed crb) as [_|Hne]; [discriminate|].
  destruct (String.eqb_spec (trimMetadata E deployed) (trimMetadata E crb)) as [_|Htrim];
    [discriminate|].
  destruct (Nat.eqb_spec (String.length (trimMetadata E deployed))
              (String.length (trimMetadata E crb))) as [Hsame|_]; [|discriminate].
  unfold bind, orFetch.
  destruct (truthy creationData) eqn:Htruthy.
  - unfold ret. destruct creationData as [data|]; [|discriminate Htruthy].
    destruct (negb (data =? "")); [|discriminate].
    destruct (startsWith data ccb); [discriminate|].
    destruct (startsWith data (trimMetadata E ccb)); discriminate.
  - destruct (getCreationData E chain address st) as [st1 [[data|]|e]].
    + destruct (negb (data =? "")); [|discriminate].
      destruct (startsWith data ccb); [discriminate|].
      destruct (startsWith data (trimMetadata E ccb)); discriminate.
    + discriminate.
    + intros H; injection H as <- <-.
      split; [reflexivity|]. split; [|reflexivity].
      exists deployed. split; [reflexivity|]. now repeat split.
Qed.

End CompareMore.

(** ** More on the resolver of creation data *)

Section ResolverMore.
Context (E : Env).

Lemma attempt_trace (chain contractAddress : string) (s : Strategy)
  (st st' : State (World E)) (r : Outcome JsString) :
  attempt E chain contractAddress s st = (st', r) ->
  exists logs,
    trace st' = (trace st ++ logs ++ [requestOf contractAddress s])%list
    /\ Forall (fun ev => isLog ev = true) logs.
Proof.
  destruct s as [fetchAddress txRegex web3|graphQLFetchAddress web3|archiveWeb3];
    unfold attempt, bind, emit, call; cbn [world trace requestOf].
  - destruct (getCreationDataByScraping E fetchAddress txRegex web3 (world st)) as [w o].
    intros H; injection H as <- _. cbn [trace]. eexists [_]. rewrite <- app_assoc.
    split; [reflexivity | now repeat constructor].
  - destruct (getCreationDataFromGraphQL E graphQLFetchAddress contractAddress web3 (world st))
      as [w o].
    intros H; injection H as <- _. cbn [trace]. exists []. split; [reflexivity | constructor].
  - destruct (getCreationDataFromArchive E contractAddress archiveWeb3 (world st)) as [w o].
    intros H; injection H as <- _. cbn [trace]. eexists [_]. rewrite <- app_assoc.
    split; [reflexivity | now repeat constructor].
Qed.

Lemma filter_logs (logs : list Event) :
  Forall (fun ev => isLog ev = true) logs -> filter isStrategyCall logs = [].
Proof.
  induction 1 as [|ev logs Hev _ IH]; [reflexivity|].
  cbn [filter]. destruct ev; try discriminate Hev. exact IH.
Qed.

Lemma isStrategyCall_requestOf (contractAddress : string) (s : Strategy) :
  isStrategyCall (requestOf contractAddress s) = true.
Proof. now destruct s. Qed.

(** The requests "first success" makes are those of an initial segment of
    its strategies, in their order, one request each. *)
Lemma firstSuccess_requests (chain contractAddress : string) (ss : list Strategy) :
  forall (st st' : State (World E)) (r : Outcome JsString),
    firstSuccess E chain contractAddress ss st = (st', r) ->
    exists evs tried rest,
      trace st' = (trace st ++ evs)%list
      /\ ss = (tried ++ rest)%list
      /\ filter isStrategyCall evs = List.map (requestOf contractAddress) tried
      /\ Forall (fun ev => isLog ev = true \/ In ev (List.map (requestOf contractAddress) ss))
           evs.
Proof.
  induction ss as [|s ss IH]; intros st st' r.
  - cbn [firstSuccess]. unfold bind, emit, throw. intros H; injection H as <- _.
    exists [exhaustedLog chain contractAddress], [], []. cbn [trace].
    repeat split. constructor; [now left | constructor].
  - cbn [firstSuccess]. unfold tryCatch.
    destruct (attempt E chain contractAddress s st) as [st1 [v|err]] eqn:Hs;
      destruct (attempt_trace _ _ _ _ _ _ Hs) as (logs & Ht1 & Hlogs).
    + intros H; injection H as <- _.
      exists (logs ++ [requestOf contractAddress s])%list, [s], ss.
      split; [exact Ht1|]. split; [reflexivity|]. split.
      * rewrite filter_app, (filter_logs _ Hlogs). cbn [filter app List.map].
        now rewrite isStrategyCall_requestOf.
      * apply Forall_app. split.
        -- eapply Forall_impl; [|exact Hlogs]. intros ev Hev. now left.
        -- constructor; [|constructor]. right. now left.
    + unfold bind, emit. intros H.
      destruct (IH _ _ _ H) as (evs & tried & rest & Ht & Hss & Hreq & Hall).
      cbn [trace] in Ht.
      exists ((logs ++ [requestOf contractAddress s])
              ++ failureLog chain contractAddress s err :: evs)%list,
             (s :: tried), rest.
      split; [rewrite Ht, Ht1; now rewrite <- !app_assoc|].
      split; [now rewrite Hss|]. split.
      * rewrite !filter_app, (filter_logs _ Hlogs). cbn [filter app List.map].
        rewrite isStrategyCall_requestOf. cbn [app]. now rewrite Hreq.
      * apply Forall_app. split; [apply Forall_app; split|].
        -- eapply Forall_impl; [|exact Hlogs]. intros ev Hev. now left.
        -- constructor; [|constructor]. right. now left.
        -- constructor; [now left|].
           eapply Forall_impl; [|exact Hall]. intros ev [Hev|Hev]; [now left|].
           right. now right.
Qed.

(** In one call [getCreationData] makes the requests of an initial segment
    of the configured strategies, in the fixed order and one request each:
    no strategy is asked twice, and none is asked before an earlier one. *)
Theorem resolver_attempts_in_order_once
  (chain contractAddress : string) (c : InjectorChain)
  (st st' : State (World E)) (r : Outcome JsString) :
  chains E chain = Some c ->
  getCreationData E chain contractAddress st = (st', r) ->
  exists evs tried rest,
    trace st' = (trace st ++ evs)%list
    /\ configuredStrategies c contractAddress = (tried ++ rest)%list
    /\ filter isStrategyCall evs = List.map (requestOf contractAddress) tried.
Proof.
  intros Hc. rewrite (getCreationData_firstSuccess _ _ _ _ _ Hc). intros H.
  destruct (firstSuccess_requests _ _ _ _ _ _ H) as (evs & tried & rest & Ht & Hss & Hreq & _).
  now exists evs, tried, rest.
Qed.

Lemma configured_request (c : InjectorChain) (contractAddress : string) (ev : Event) :
  In ev (List.map (requestOf contractAddress) (configuredStrategies c contractAddress)) ->
  resolverEvent c ev = true.
Proof.
  unfold configuredStrategies.
  destruct (truthy (contractFetchAddress c) && truthy (txRegex c)) eqn:Hscrape;
    destruct (truthy (graphQLFetchAddress c)) eqn:Hindexer;
    destruct (archiveWeb3 c) as [a|] eqn:Harchive;
    cbn [app List.map In requestOf];
    intros H; repeat destruct H as [<-|H]; try contradiction;
    cbn [resolverEvent]; rewrite ?Hscrape, ?Hindexer, ?Harchive; reflexivity.
Qed.

(** All [getCreationData] does to the outside is write log records and make
    the requests of strategies the chain is configured for: it never
    scrapes without both the address template and the pattern, never asks
    an indexer or an archive node that is not configured, and does nothing
    else (no code is read, nothing is stored). *)
Theorem resolver_requests_only_what_is_configured
  (chain contractAddress : string) (c : InjectorChain)
  (st st' : State (World E)) (r : Outcome JsString) :
  chains E chain = Some c ->
  getCreationData E chain contractAddress st = (st', r) ->
  exists evs,
    trace st' = (trace st ++ evs)%list
    /\ Forall (fun ev => resolverEvent c ev = true) evs.
Proof.
  intros Hc. rewrite (getCreationData_firstSuccess _ _ _ _ _ Hc). intros H.
  destruct (firstSuccess_requests _ _ _ _ _ _ H) as (evs & _ & _ & Ht & _ & _ & Hall).
  exists evs. split; [exact Ht|].
  eapply Forall_impl; [|exact Hall].
  intros ev [Hev|Hev]; [now destruct ev | exact (configured_request _ _ _ Hev)].
Qed.

(** On a chain the Injector does not know, the resolver and the search over
    candidates fail at once, before anything is logged or requested. *)
Theorem unknown_chain_fails_at_once
  (chain contractAddress : string) (addresses : list string) (crb ccb : string)
  (st : State (World E)) :
  chains E chain = None ->
  (exists err, getCreationData E chain contractAddress st = (st, Throw err))
  /\ (exists err, matchBytecodeToAddress E chain addresses crb ccb st = (st, Throw err)).
Proof.
  intros Hc. split.
  - unfold getCreationData, bind, chainOf. rewrite Hc. eexists. reflexivity.
  - unfold matchBytecodeToAddress, bind, chainOf. rewrite Hc. eexists. reflexivity.
Qed.

End ResolverMore.

(** ** More on the search over candidate addresses *)

Section OrchestratorMore.
Context (E : Env).

(** The loop over candidates that were tried without a match, under the
    count of all candidates they belong to. *)
Lemma forAddresses_tried (chainName crb ccb chain : string)
  (tried rest : list string) (st st1 : State (World E)) :
  Unmatched E chain crb ccb tried st st1 ->
  rest <> [] \/ tried = [] \/ List.length tried <> 1 ->
  forAddresses E (List.length (tried ++ rest)) chain chainName crb ccb tried
    (Match.mk None None None None) st
  = (st1, Return (Match.mk None None None None, false)).
Proof.
  intros Hrun Hcount.
  destruct tried as [|first others].
  - inversion Hrun; subst. reflexivity.
  - apply forAddresses_unmatched; [|exact Hrun].
    rewrite length_app. cbn [List.length].
    destruct Hcount as [Hrest | [Hnil | Hlen]].
    + destruct rest; [now elim Hrest | cbn [List.length]; lia].
    + discriminate Hnil.
    + cbn [List.length] in Hlen. lia.
Qed.

(** When several candidates are given (or none) and no comparison yields a
    status, every candidate has been tried and the result is the match the
    search started with: no address, no status, no message. *)
Theorem no_candidate_matches
  (chain : string) (c : InjectorChain) (addresses : list string) (crb ccb : string)
  (st st' : State (World E)) :
  chains E chain = Some c ->
  List.length addresses <> 1 ->
  Unmatched E chain crb ccb addresses st st' ->
  matchBytecodeToAddress E chain addresses crb ccb st
  = (st', Return (Match.mk None None None None)).
Proof.
  intros Hc Hn Hrun.
  unfold matchBytecodeToAddress, chainOf. rewrite Hc.
  unfold bind at 1. unfold ret at 1. cbv iota. unfold bind.
  pose proof (forAddresses_tried (chainNameOf c) _ _ _ addresses [] _ _ Hrun) as Hloop.
  rewrite app_nil_r in Hloop. unfold chainNameOf in Hloop.
  rewrite Hloop; [reflexivity|]. right. right. exact Hn.
Qed.

(** An address that cannot be checksummed ends the search with its error,
    once the candidates before it have been tried: the candidates after it
    are not looked at, whether they would match or not. *)
Theorem invalid_candidate_aborts
  (chain : string) (c : InjectorChain) (crb ccb : string)
  (tried : list string) (candidate : string) (later : list string)
  (st st1 : State (World E)) (err : JsError) :
  chains E chain = Some c ->
  Unmatched E chain crb ccb tried st st1 ->
  toChecksumAddress E candidate = Throw err ->
  matchBytecodeToAddress E chain (tried ++ candidate :: later)%list crb ccb st
  = (st1, Throw err).
Proof.
  intros Hc Hrun Hsum.
  unfold matchBytecodeToAddress, chainOf. rewrite Hc.
  unfold bind at 1. unfold ret at 1. cbv iota. unfold bind.
  assert (Hne : candidate :: later <> []) by discriminate.
  assert (Hloop := forAddresses_tried (chainNameOf c) crb ccb chain tried
                     (candidate :: later) st st1 Hrun (or_introl Hne)).
  unfold chainNameOf in Hloop.
  rewrite (forAddresses_app _ _ _ _ _ _ _ _ _ _ _ _ Hloop).
  cbn [forAddresses]. unfold bind at 1. unfold tryAddress. unfold bind at 1. unfold lift.
  rewrite Hsum. reflexivity.
Qed.

(** When the code at the only candidate cannot be read, the search does not
    fail: it hands back a match without address and status whose message
    says that the chain is temporarily unavailable. *)
Theorem unreadable_code_is_unavailable
  (chain : string) (c : InjectorChain) (candidate address crb ccb : string)
  (st : State (World E)) (w : World E) (err : JsError) :
  chains E chain = Some c ->
  toChecksumAddress E candidate = Return address ->
  getBytecode E (web3 c) address (world st) = (w, Throw err) ->
  matchBytecodeToAddress E chain [candidate] crb ccb st
  = (mkState w (trace st ++ [retrievalLog chain address;
                             CallGetBytecode (web3 c) address]),
     Return (Match.mk None None None
               (Some (chainNameOf c ++ " is temporarily unavailable.")))).
Proof.
  intros Hc Hsum Hcode.
  unfold matchBytecodeToAddress, chainOf. rewrite Hc.
  unfold bind at 1. unfold ret at 1. cbv iota.
  cbn [forAddresses List.length].
  unfold tryAddress, bind, lift. rewrite Hsum. cbv iota.
  unfold fetchDeployedBytecode, tryCatch, bind, emit, chainOf. rewrite Hc.
  unfold ret at 1. cbv iota. unfold call. cbn [world trace]. rewrite Hcode.
  unfold ret. cbn. rewrite <- app_assoc. reflexivity.
Qed.

Lemma tryAddress_shape (n : nat) (chain chainName crb ccb candidate : string)
  (match_ m' : Match.t) (broke : bool) (st st' : State (World E)) :
  tryAddress E n chain chainName crb ccb candidate match_ st = (st', Return (m', broke)) ->
  emptyMatch match_ ->
  (broke = false -> emptyMatch m')
  /\ (broke = true ->
      toChecksumAddress E candidate = Return (text (Match.address m'))
      /\ Match.address m' <> None /\ Match.status m' <> None /\ Match.message m' = None
      /\ forall args, Match.encodedConstructorArgs m' = Some args ->
           Match.status m' = Some perfect /\ startsWith args "0x" = true).
Proof.
  intros H Hempty. revert H.
  assert (Hmsg : forall message, emptyMatch (withMessage match_ message))
    by (intros message; exact Hempty).
  unfold tryAddress, bind, lift.
  destruct (toChecksumAddress E candidate) as [address|e]; [|discriminate].
  destruct (fetchDeployedBytecode E chain address st) as [st1 [dep|e]]; [|discriminate].
  unfold tryCatch, bind, ret.
  destruct (compareBytecodes E dep None crb ccb chain address st1)
    as [st2 [[[s|] args]|e]] eqn:Hcmp.
  - intros H; injection H as <- <- <-.
    split; [discriminate|]. intros _.
    cbn [Match.address Match.status Match.message Match.encodedConstructorArgs text].
    split; [reflexivity|]. split; [discriminate|]. split; [discriminate|].
    split; [reflexivity|].
    intros a Heq. subst args.
    destruct (compare_result_shape _ _ _ _ _ _ _ _ _ _ Hcmp a eq_refl) as [Hp Hx].
    cbn [CompareResult.status] in Hp. injection Hp as ->. now split.
  - destruct ((n =? 1)%nat && negb (truthy (Match.message match_)));
      intros H; injection H as <- <- <-; (split; [intros _ | discriminate]);
      [apply Hmsg | exact Hempty].
  - destruct (n =? 1)%nat; cbn [andb];
      try destruct (negb (truthy (Match.message _)));
      intros H; injection H as <- <- <-; (split; [intros _ | discriminate]);
      first [exact Hempty | apply Hmsg | exact (Hmsg _)].
Qed.

Lemma forAddresses_shape (n : nat) (chain chainName crb ccb : string)
  (addresses : list string) :
  forall (match_ m' : Match.t) (broke : bool) (st st' : State (World E)),
    forAddresses E n chain chainName crb ccb addresses match_ st
    = (st', Return (m', broke)) ->
    emptyMatch match_ ->
    (broke = false -> emptyMatch m')
    /\ (broke = true ->
        (exists candidate, In candidate addresses
           /\ toChecksumAddress E candidate = Return (text (Match.address m')))
        /\ Match.address m' <> None /\ Match.status m' <> None /\ Match.message m' = None
        /\ forall args, Match.encodedConstructorArgs m' = Some args ->
             Match.status m' = Some perfect /\ startsWith args "0x" = true).
Proof.
  induction addresses as [|a rest IH]; intros match_ m' broke st st'.
  - cbn [forAddresses]. unfold ret. intros H; injection H as <- <- <-.
    intros Hempty. split; [now intros _ | discriminate].
  - cbn [forAddresses]. unfold bind.
    destruct (tryAddress E n chain chainName crb ccb a match_ st)
      as [st1 [[m1 b1]|e]] eqn:Hturn; [|discriminate].
    intros H Hempty.
    destruct (tryAddress_shape _ _ _ _ _ _ _ _ _ _ _ Hturn Hempty) as [Hnb Hb].
    destruct b1.
    + unfold ret in H. injection H as <- <- <-.
      split; [discriminate|]. intros _.
      destruct (Hb eq_refl) as (Hsum & Hrest).
      split; [exists a; split; [now left | exact Hsum] | exact Hrest].
    + destruct (IH _ _ _ _ _ H (Hnb eq_refl)) as [Hnb' Hb'].
      split; [exact Hnb'|]. intros Hbroke.
      destruct (Hb' Hbroke) as ((candidate & Hin & Hsum) & Hrest).
      split; [exists candidate; split; [now right | exact Hsum] | exact Hrest].
Qed.

(** What [matchBytecodeToAddress] hands back is well formed: address and
    status come together; the address is the checksummed form of one of the
    candidates; a message comes only without a status; and constructor
    arguments come only with the status ["perfect"], as a ["0x"] string. *)
Theorem match_is_well_formed
  (chain : string) (addresses : list string) (crb ccb : string)
  (st st' : State (World E)) (m : Match.t) :
  matchBytecodeToAddress E chain addresses crb ccb st = (st', Return m) ->
  (Match.status m = None <-> Match.address m = None)
  /\ (forall address, Match.address m = Some address ->
        exists candidate, In candidate addresses
                          /\ toChecksumAddress E candidate = Return address)
  /\ (Match.message m <> None -> Match.status m = None)
  /\ (forall args, Match.encodedConstructorArgs m = Some args ->
        Match.status m = Some perfect /\ startsWith args "0x" = true).
Proof.
  unfold matchBytecodeToAddress, bind, chainOf.
  destruct (chains E chain) as [c|]; [|discriminate]. unfold ret at 1.
  destruct (forAddresses E (List.length addresses) chain
              (if truthy (name c) then text (name c) else "The chain")
              crb ccb addresses (Match.mk None None None None) st)
    as [st1 [[m1 broke]|e]] eqn:Hloop; [|discriminate].
  unfold ret. cbn [fst]. intros H; injection H as <- <-.
  assert (Hempty : emptyMatch (Match.mk None None None None)) by now repeat split.
  destruct (forAddresses_shape _ _ _ _ _ _ _ _ _ _ _ Hloop Hempty) as [Hnb Hb].
  destruct broke.
  - destruct (Hb eq_refl) as ((candidate & Hin & Hsum) & Ha & Hs & Hm & Hargs).
    split; [split; intros; contradiction|].
    split; [intros address Haddr; exists candidate; split; [exact Hin|];
            now rewrite Haddr in Hsum|].
    split; [intros Hmsg; contradiction | exact Hargs].
  - destruct (Hnb eq_refl) as (Ha & Hs & Hargs).
    split; [now split|].
    split; [intros address Haddr; rewrite Ha in Haddr; discriminate|].
    split; [now intros _|].
    intros args Heq. rewrite Hargs in Heq. discriminate.
Qed.

End OrchestratorMore.

(** ** More on [inject] *)

Section InjectMore.
Context (E : Env).

Lemma getCreationData_emits (chain contractAddress : string) :
  Emits (fun ev => isLog ev || isStrategyCall ev) (getCreationData E chain contractAddress).
Proof.
  intros st st' r H.
  destruct (chains E chain) as [c|] eqn:Hc.
  - rewrite (getCreationData_firstSuccess _ _ _ _ _ Hc) in H.
    destruct (firstSuccess_requests _ _ _ _ _ _ _ H) as (evs & _ & _ & Ht & _ & _ & Hall).
    exists evs. split; [exact Ht|].
    eapply Forall_impl; [|exact Hall].
    intros ev [Hev|Hev]; [now rewrite Hev|].
    apply in_map_iff in Hev. destruct Hev as (s & <- & _).
    rewrite isStrategyCall_requestOf. apply orb_true_r.
  - unfold getCreationData, bind, chainOf in H. rewrite Hc in H.
    injection H as <- _. exists []. now rewrite app_nil_r.
Qed.

Lemma compareBytecodes_emits (deployedBytecode creationData : JsString)
  (crb ccb chain address : string) :
  Emits (fun ev => isLog ev || isStrategyCall ev)
    (compareBytecodes E deployedBytecode creationData crb ccb chain address).
Proof.
  unfold compareBytecodes, orFetch. cbv zeta.
  repeat emits_step. apply getCreationData_emits.
Qed.

Lemma fetchDeployedBytecode_emits (chain address : string) :
  Emits (fun ev => isLog ev || isGetBytecode ev) (fetchDeployedBytecode E chain address).
Proof.
  unfold fetchDeployedBytecode, chainOf. repeat emits_step; reflexivity.
Qed.

Lemma tryAddress_emits (n : nat) (chain chainName crb ccb address : string) (match_ : Match.t) :
  Emits searchEvent (tryAddress E n chain chainName crb ccb address match_).
Proof.
  unfold tryAddress.
  apply emits_bind; [apply emits_lift|intros a].
  apply emits_bind; [|intros dep].
  { eapply emits_weaken; [|apply fetchDeployedBytecode_emits].
    intros ev. unfold searchEvent. destruct ev; cbn; congruence. }
  apply emits_bind; [|intros [cr m]].
  { apply emits_tryCatch; [|intros e; apply emits_ret].
    apply emits_bind; [|intros cr; apply emits_ret].
    eapply emits_weaken; [|apply compareBytecodes_emits].
    intros ev. unfold searchEvent. destruct ev; cbn; congruence. }
  repeat emits_step.
Qed.

Lemma forAddresses_emits (n : nat) (chain chainName crb ccb : string)
  (addresses : list string) :
  forall match_, Emits searchEvent (forAddresses E n chain chainName crb ccb addresses match_).
Proof.
  induction addresses as [|a rest IH]; intros match_; cbn [forAddresses].
  - apply emits_ret.
  - apply emits_bind; [apply tryAddress_emits|intros [m b]].
    destruct b; [apply emits_ret | apply IH].
Qed.

Lemma matchBytecodeToAddress_emits (chain : string) (addresses : list string) (crb ccb : string) :
  Emits searchEvent (matchBytecodeToAddress E chain addresses crb ccb).
Proof.
  unfold matchBytecodeToAddress, chainOf. cbv zeta.
  apply emits_bind; [repeat emits_step|intros c].
  apply emits_bind; [apply forAddresses_emits | intros r; apply emits_ret].
Qed.

(** All the search over candidates does to the outside is write log
    records, read the code at addresses and make the requests of retrieval
    strategies: it compiles nothing and stores nothing. *)
Theorem search_stores_nothing
  (chain : string) (addresses : list string) (crb ccb : string)
  (st st' : State (World E)) (r : Outcome Match.t) :
  matchBytecodeToAddress E chain addresses crb ccb st = (st', r) ->
  exists evs,
    trace st' = (trace st ++ evs)%list
    /\ Forall (fun ev => searchEvent ev = true) evs.
Proof. apply matchBytecodeToAddress_emits. Qed.

Lemma obtainMatch_emits (inputData : InputData) :
  Emits (fun ev => negb (isFileService ev)) (obtainMatch E inputData).
Proof.
  unfold obtainMatch, validateAddresses, validateChain. cbv zeta.
  repeat emits_step; try reflexivity.
  - eapply emits_weaken; [|apply compareBytecodes_emits]. intros ev. now destruct ev.
  - eapply emits_weaken; [|apply matchBytecodeToAddress_emits]. intros ev. now destruct ev.
Qed.

Lemma getMetadataPath_emits (compilationResult : RecompilationResult) (address chain : string) :
  Emits isLog (getMetadataPathFromCborEncoded E compilationResult address chain).
Proof.
  unfold getMetadataPathFromCborEncoded. repeat emits_step; reflexivity.
Qed.

(** Sources, metadata and constructor arguments are stored without fail. *)
Lemma artifacts_are_stored (matchQuality : option MatchQuality) (chain address : string)
  (contract : CheckedContract) (compilationResult : RecompilationResult)
  (m : Match.t) (st : State (World E)) :
  (storeSources E matchQuality chain address (solidity contract) ;;
   storeMetadata E matchQuality chain address compilationResult ;;
   (if truthy (Match.encodedConstructorArgs m)
       && negb (String.length (text (Match.encodedConstructorArgs m)) =? 0)%nat
    then storeConstructorArgs E matchQuality chain address
           (text (Match.encodedConstructorArgs m))
    else ret tt) ;;
   ret m) st
  = (extended (artifactEvents matchQuality chain address contract compilationResult
                 (Match.encodedConstructorArgs m)) st,
     Return m).
Proof.
  unfold bind, storeMetadata.
  rewrite storeSources_events, emit_extends, storeConstructorArgs_events.
  unfold ret, artifactEvents. now rewrite !extended_extended.
Qed.

(** How [storeMatch] can end: with an error and nothing but log records
    written, or with a match that has an address and a status. *)
Lemma storeMatch_outcome (chain : string) (addresses : list string)
  (contract : CheckedContract) (compilationResult : RecompilationResult)
  (match_ : Match.t) (st st' : State (World E)) (r : Outcome Match.t) :
  storeMatch E chain addresses contract compilationResult match_ st = (st', r) ->
  match r with
  | Throw _ =>
      exists evs, trace st' = (trace st ++ evs)%list
                  /\ Forall (fun ev => isLog ev = true) evs
  | Return m =>
      truthy (Match.address m) = true /\ Match.status m <> None
      /\ Match.address m = Match.address match_
      /\ Match.encodedConstructorArgs m = Match.encodedConstructorArgs match_
  end.
Proof.
  unfold storeMatch.
  destruct (truthy (Match.address match_)) eqn:Haddr; cbn [andb];
    [destruct (Match.status match_) as [status|] eqn:Hstatus|].
  - unfold bind at 1.
    destruct (getMetadataPathFromCborEncoded E compilationResult
                (text (Match.address match_)) chain st) as [st2 [path|e]] eqn:Hpath.
    + unfold bind at 1.
      destruct (truthy path).
      * unfold bind at 1. rewrite emit_extends. unfold bind at 1. rewrite emit_extends.
        unfold ret at 1. rewrite artifacts_are_stored.
        intros H; injection H as _ <-. rewrite Haddr, Hstatus. now repeat split.
      * unfold ret at 1. rewrite artifacts_are_stored.
        intros H; injection H as _ <-. cbn. rewrite Haddr. now repeat split.
    + intros H; injection H as <- <-.
      exact (getMetadataPath_emits _ _ _ _ _ _ Hpath).
  - unfold bind, emit, throw. intros H; injection H as <- <-.
    eexists [_]. split; [reflexivity | now repeat constructor].
  - unfold bind, emit, throw. intros H; injection H as <- <-.
    eexists [_]. split; [reflexivity | now repeat constructor].
Qed.

(** [inject] hands back matches only: what it returns has an address and a
    status; a search or comparison without result ends in an error. *)
Theorem inject_returns_only_matches
  (inputData : InputData) (st st' : State (World E)) (m : Match.t) :
  inject E inputData st = (st', Return m) ->
  truthy (Match.address m) = true /\ Match.status m <> None.
Proof.
  unfold inject, bind.
  destruct (obtainMatch E inputData st) as [st1 [[[contract compilationResult] match_]|e]];
    [|discriminate].
  intros H. apply storeMatch_outcome in H. now destruct H as (Ha & Hs & _).
Qed.

(** When [inject] ends in an error, the file service has not been called:
    validation, compilation, the search and the derivation of the content
    address all come before the first thing is stored. *)
Theorem inject_error_stores_nothing
  (inputData : InputData) (st st' : State (World E)) (err : JsError) :
  inject E inputData st = (st', Throw err) ->
  exists evs,
    trace st' = (trace st ++ evs)%list
    /\ Forall (fun ev => isFileService ev = false) evs.
Proof.
  unfold inject, bind.
  destruct (obtainMatch E inputData st)
    as [st1 [[[contract compilationResult] match_]|e]] eqn:Hobtain;
    destruct (obtainMatch_emits _ _ _ _ Hobtain) as (evs1 & Ht1 & Hall1).
  - intros H. apply storeMatch_outcome in H. destruct H as (evs2 & Ht2 & Hall2).
    exists (evs1 ++ evs2)%list. rewrite Ht2, Ht1, app_assoc. split; [reflexivity|].
    apply Forall_app. split.
    + eapply Forall_impl; [|exact Hall1]. intros ev Hev. now apply negb_true_iff.
    + eapply Forall_impl; [|exact Hall2]. intros ev Hev. now destruct ev.
  - intros H; injection H as <- _. exists evs1. split; [exact Ht1|].
    eapply Forall_impl; [|exact Hall1]. intros ev Hev. now apply negb_true_iff.
Qed.

(** A match without a status makes [inject] fail with an error that names
    the contract and gives the message of the match, or a general one when
    the match has none; the error is logged first. *)
Theorem inject_reports_unmatched
  (inputData : InputData) (contract : CheckedContract)
  (compilationResult : RecompilationResult) (match_ : Match.t)
  (st st1 : State (World E)) :
  obtainMatch E inputData st = (st1, Return (contract, compilationResult, match_)) ->
  Match.status match_ = None ->
  inject E inputData st
  = (logged (Log LError [("loc", LStr "[INJECT]");
                         ("chain", LStr (text (inputChain inputData)));
                         ("addresses", LList (List.map text (inputAddresses inputData)));
                         ("err", LStr (unmatchedError contract match_))]
                 None) st1,
     Throw (unmatchedError contract match_)).
Proof.
  intros Hobtain Hstatus. unfold inject, bind. rewrite Hobtain.
  unfold storeMatch. rewrite Hstatus, andb_false_r. reflexivity.
Qed.

Lemma null_address_found (addresses : list JsString) :
  existsb (fun address => match address with None => true | Some _ => false end) addresses
  = true
  <-> In None addresses.
Proof.
  rewrite existsb_exists. split.
  - intros ([a|] & Hin & Ha); [discriminate | exact Hin].
  - intros Hin. now exists None.
Qed.

(** Without an address, or with a [null] among the addresses, [inject]
    fails at once: nothing is completed, compiled, requested or logged. *)
Theorem inject_rejects_missing_addresses
  (inputData : InputData) (st : State (World E)) :
  inputAddresses inputData = [] \/ In None (inputAddresses inputData) ->
  inject E inputData st = (st, Throw "Missing address for submitted sources/metadata").
Proof.
  intros Hbad. unfold inject, obtainMatch, validateAddresses. cbv zeta.
  destruct Hbad as [-> | Hnull]; [reflexivity|].
  apply null_address_found in Hnull. rewrite Hnull.
  now destruct (List.length (inputAddresses inputData) =? 0)%nat.
Qed.

(** With addresses that are all there but no chain, [inject] fails at once
    with the error for the chain; the addresses are checked first. *)
Theorem inject_rejects_missing_chain
  (inputData : InputData) (st : State (World E)) :
  inputAddresses inputData <> [] ->
  ~ In None (inputAddresses inputData) ->
  truthy (inputChain inputData) = false ->
  inject E inputData st = (st, Throw "Missing chain name for submitted sources/metadata").
Proof.
  intros Hne Hnull Hchain. unfold inject, obtainMatch, validateAddresses, validateChain.
  cbv zeta.
  destruct (inputAddresses inputData) as [|a rest] eqn:Haddrs; [now elim Hne|].
  cbn [List.length Nat.eqb].
  match goal with
  | |- context [existsb ?f (a :: rest)] => destruct (existsb f (a :: rest)) eqn:Hex
  end; [apply null_address_found in Hex; contradiction|].
  rewrite Hchain. reflexivity.
Qed.

Lemma obtainMatch_prepared (inputData : InputData) (st st2 : State (World E))
  (contract : CheckedContract) (outcome : Outcome RecompilationResult) :
  prepared E inputData st st2 contract outcome ->
  obtainMatch E inputData st
  = match outcome with
    | Throw err => (st2, Throw err)
    | Return compilationResult =>
        bind
          (if truthy (inputBytecode inputData) then
             if negb (List.length (List.map text (inputAddresses inputData)) =? 1)%nat then
               let err := "Injector cannot work with multiple addresses if bytecode is provided" in
               emit (Log LError [("loc", LStr "[INJECTOR]");
                                 ("addresses", LList (List.map text (inputAddresses inputData)));
                                 ("err", LStr err)]
                         None) ;;
               throw err
             else
               let address := List.hd "" (List.map text (inputAddresses inputData)) in
               compareResult <- compareBytecodes E (inputBytecode inputData)
                                  (inputCreationData inputData)
                                  (deployedBytecode compilationResult)
                                  (bytecode compilationResult)
                                  (text (inputChain inputData)) address ;;
               checkedAddress <- lift (toChecksumAddress E address) ;;
               ret (Match.mk (Some checkedAddress) (CompareResult.status compareResult)
                      (CompareResult.encodedConstructorArgs compareResult) None)
           else
             matchBytecodeToAddress E (text (inputChain inputData))
               (List.map text (inputAddresses inputData))
               (deployedBytecode compilationResult) (bytecode compilationResult))
          (fun match_ => ret (contract, compilationResult, match_)) st2
    end.
Proof.
  intros (Hne & Hnull & Hchain & st1 & Hcontract & Hcompiled).
  unfold obtainMatch, validateAddresses, validateChain. cbv zeta.
  destruct (inputAddresses inputData) as [|a rest] eqn:Haddrs; [now elim Hne|].
  cbn [List.length Nat.eqb].
  match goal with
  | |- context [existsb ?f (a :: rest)] => destruct (existsb f (a :: rest)) eqn:Hex
  end; [apply null_address_found in Hex; contradiction|].
  rewrite Hchain. cbn [negb].
  unfold bind at 1. unfold ret at 1. cbv iota.
  unfold bind at 1. unfold ret at 1. cbv iota.
  unfold bind at 1. rewrite Hcontract.
  unfold bind at 1. rewrite Hcompiled.
  destruct outcome; reflexivity.
Qed.

(** An error of the compiler is the error of [inject]; up to then only the
    compiler side has been called. *)
Theorem inject_compiler_error
  (inputData : InputData) (st st2 : State (World E))
  (contract : CheckedContract) (err : JsError) :
  prepared E inputData st st2 contract (Throw err) ->
  inject E inputData st = (st2, Throw err)
  /\ exists evs, trace st2 = (trace st ++ evs)%list
                 /\ Forall (fun ev => isCompilerCall ev = true) evs.
Proof.
  intros Hprep. split.
  - unfold inject, bind. now rewrite (obtainMatch_prepared _ _ _ _ _ Hprep).
  - destruct Hprep as (_ & _ & _ & st1 & Hcontract & Hcompiled).
    unfold call in Hcompiled.
    destruct (recompile E (contractMetadata contract) (solidity contract) (world st1))
      as [w2 o2]. injection Hcompiled as <- _. cbn [trace].
    destruct (isValid E (inputContract inputData)).
    + injection Hcontract as <- _. exists [CallRecompile]. split; [reflexivity|].
      now repeat constructor.
    + unfold call in Hcontract.
      destruct (fetchMissing E (inputContract inputData) (world st)) as [w1 o1].
      injection Hcontract as <- _. cbn [trace].
      exists [CallFetchMissing; CallRecompile]. rewrite <- app_assoc. split; [reflexivity|].
      now repeat constructor.
Qed.

(** When the bytecode comes with the input, exactly one address must come
    with it: otherwise [inject] logs and raises the error for that, after
    compiling and before anything is compared. *)
Theorem inject_bytecode_needs_one_address
  (inputData : InputData) (st st2 : State (World E))
  (contract : CheckedContract) (compilationResult : RecompilationResult) :
  prepared E inputData st st2 contract (Return compilationResult) ->
  truthy (inputBytecode inputData) = true ->
  List.length (inputAddresses inputData) <> 1 ->
  inject E inputData st
  = (logged (Log LError [("loc", LStr "[INJECTOR]");
                         ("addresses", LList (List.map text (inputAddresses inputData)));
                         ("err", LStr "Injector cannot work with multiple addresses if bytecode is provided")]
                 None) st2,
     Throw "Injector cannot work with multiple addresses if bytecode is provided").
Proof.
  intros Hprep Hcode Hlen.
  unfold inject. unfold bind at 1. rewrite (obtainMatch_prepared _ _ _ _ _ Hprep).
  rewrite Hcode, length_map.
  apply Nat.eqb_neq in Hlen. rewrite Hlen. reflexivity.
Qed.

Lemma storeSources_emits (matchQuality : option MatchQuality) (chain address : string)
  (sources : list (string * string)) :
  Emits (World := World E) isFileService
    (storeSources E matchQuality chain address sources).
Proof.
  induction sources as [|[sourcePath content] rest IH]; cbn [storeSources].
  - apply emits_ret.
  - apply emits_bind; [now apply emits_emit | intros _; exact IH].
Qed.

Lemma storeMatch_emits (chain : string) (addresses : list string)
  (contract : CheckedContract) (compilationResult : RecompilationResult) (match_ : Match.t) :
  Emits (fun ev => isLog ev || isFileService ev)
    (storeMatch E chain addresses contract compilationResult match_).
Proof.
  unfold storeMatch, storeMetadata, storeConstructorArgs. cbv zeta.
  destruct (truthy (Match.address match_)
            && match Match.status match_ with Some _ => true | None => false end).
  - apply emits_bind; [|intros path].
    { eapply emits_weaken; [|apply getMetadataPath_emits]. intros ev H. now rewrite H. }
    apply emits_bind; [repeat emits_step; reflexivity|intros m].
    apply emits_bind; [|intros _].
    { eapply emits_weaken; [|apply storeSources_emits]. intros ev H. rewrite H.
      apply orb_true_r. }
    repeat emits_step; reflexivity.
  - repeat emits_step; reflexivity.
Qed.

(** When the bytecode comes with the input, [inject] never reads code from
    the chain. *)
Theorem inject_with_bytecode_reads_no_code
  (inputData : InputData) (st st' : State (World E)) (r : Outcome Match.t) :
  truthy (inputBytecode inputData) = true ->
  inject E inputData st = (st', r) ->
  exists evs,
    trace st' = (trace st ++ evs)%list
    /\ Forall (fun ev => isGetBytecode ev = false) evs.
Proof.
  intros Hcode.
  assert (Hemits : Emits (fun ev => negb (isGetBytecode ev)) (inject E inputData)).
  { unfold inject. apply emits_bind.
    - unfold obtainMatch, validateAddresses, validateChain. cbv zeta. rewrite Hcode.
      repeat emits_step; try reflexivity.
      eapply emits_weaken; [|apply compareBytecodes_emits]. intros ev. now destruct ev.
    - intros [[contract compilationResult] match_].
      eapply emits_weaken; [|apply storeMatch_emits]. intros ev. now destruct ev. }
  intros H. destruct (Hemits _ _ _ H) as (evs & Ht & Hall).
  exists evs. split; [exact Ht|].
  eapply Forall_impl; [|exact Hall]. intros ev Hev. now apply negb_true_iff.
Qed.

End InjectMore.

(** ** The names of stored source files *)

Section SanitizePath.

Lemma allChars_append (p : ascii -> bool) (s t : string) :
  allChars p (s ++ t) = allChars p s && allChars p t.
Proof. induction s as [|c s IH]; cbn; [reflexivity | now rewrite IH, andb_assoc]. Qed.

Lemma dotsThenBoundary_rest (p : ascii -> bool) (s : string) :
  forall (seen : bool) (rest : string),
    dotsThenBoundary seen s = Some rest ->
    (allChars p s = true -> allChars p rest = true)
    /\ String.length rest + (if seen then 0 else 1) <= String.length s.
Proof.
  induction s as [|c s IH]; intros seen rest; cbn [dotsThenBoundary].
  - destruct seen; [|discriminate]. intros H; injection H as <-. split; [auto | cbn; lia].
  - destruct (c =? ".")%char.
    + intros H. destruct (IH _ _ H) as [Hall Hlen]. split.
      * cbn [allChars]. intros Hs. apply andb_true_iff in Hs. now apply Hall.
      * cbn [String.length] in *. destruct seen; lia.
    + destruct seen; cbn [andb]; [|discriminate].
      destruct (c =? "/")%char; [|discriminate].
      intros H; injection H as <-. split.
      * cbn [allChars]. intros Hs. now apply andb_true_iff in Hs.
      * cbn [String.length]. lia.
Qed.

Lemma replaceDotSegment_sound (s : string) :
  forall atStart,
    (allChars pathChar s = true -> allChars pathChar (replaceDotSegment atStart s) = true)
    /\ String.length (replaceDotSegment atStart s) <= String.length s.
Proof.
  induction s as [|c s IH]; intros atStart.
  - destruct atStart; cbn; split; auto.
  - cbn [replaceDotSegment].
    destruct (if atStart then dotsThenBoundary false (String c s) else None)
      as [rest|] eqn:Hhead.
    + destruct atStart; [|discriminate].
      destruct (dotsThenBoundary_rest pathChar _ _ _ Hhead) as [Hall Hlen]. split.
      * intros Hs. cbn [append allChars]. now rewrite (Hall Hs).
      * cbn [append String.length] in *. lia.
    + destruct (if (c =? "/")%char then dotsThenBoundary false s else None)
        as [rest|] eqn:Hslash.
      * destruct (c =? "/")%char; [|discriminate].
        destruct (dotsThenBoundary_rest pathChar _ _ _ Hslash) as [Hall Hlen]. split.
        -- cbn [allChars]. intros Hs. apply andb_true_iff in Hs. destruct Hs as [_ Hs].
           cbn [append allChars]. now rewrite (Hall Hs).
        -- cbn [append String.length] in *. lia.
      * destruct (IH false) as [Hall Hlen]. split.
        -- cbn [allChars]. intros Hs. apply andb_true_iff in Hs. destruct Hs as [Hc Hs].
           now rewrite Hc, (Hall Hs).
        -- cbn [String.length]. lia.
Qed.

Lemma mapChars_sound (s : string) :
  allChars pathChar (mapChars (fun c => if pathChar c then c else "_"%char) s) = true
  /\ String.length (mapChars (fun c => if pathChar c then c else "_"%char) s)
     = String.length s.
Proof.
  induction s as [|c s [IHa IHl]]; [now split|].
  cbn [mapChars allChars String.length]. rewrite IHa, IHl. split; [|reflexivity].
  destruct (pathChar c) eqn:Hc; [now rewrite Hc | reflexivity].
Qed.

Lemma sanitizePath_sound (originalPath : string) :
  allChars pathChar (sanitizePath originalPath) = true
  /\ String.length (sanitizePath originalPath) <= String.length originalPath.
Proof.
  unfold sanitizePath.
  destruct (mapChars_sound originalPath) as [Hall Hlen].
  destruct (replaceDotSegment_sound
              (mapChars (fun c => if pathChar c then c else "_"%char) originalPath) true)
    as [Hall' Hlen'].
  split; [now apply Hall' | now rewrite <- Hlen].
Qed.

(** A sanitized path holds nothing but letters, digits and the characters
    [_], [.], [/] and [-], and it is no longer than the path it comes from. *)
Theorem sanitizePath_is_tame (originalPath : string) :
  allChars pathChar (sanitizePath originalPath) = true
  /\ String.length (sanitizePath originalPath) <= String.length originalPath.
Proof. exact (sanitizePath_sound originalPath). Qed.

Lemma mapChars_clean (s : string) :
  allChars pathChar s = true ->
  mapChars (fun c => if pathChar c then c else "_"%char) s = s.
Proof.
  induction s as [|c s IH]; [reflexivity|].
  cbn [allChars mapChars]. intros H. apply andb_true_iff in H. destruct H as [Hc Hs].
  now rewrite Hc, (IH Hs).
Qed.

Lemma dotsThenBoundary_no_dot (s : string) :
  noLeadingDot true s = true -> dotsThenBoundary false s = None.
Proof.
  destruct s as [|c s]; [reflexivity|].
  cbn [noLeadingDot dotsThenBoundary andb].
  destruct (c =? ".")%char; [discriminate | reflexivity].
Qed.

Lemma noLeadingDot_weaken (s : string) :
  noLeadingDot true s = true -> noLeadingDot false s = true.
Proof. destruct s as [|c s]; [reflexivity|]. cbn. now destruct (c =? ".")%char. Qed.

Lemma replaceDotSegment_clean (s : string) :
  forall atStart, noLeadingDot true s = true \/ (atStart = false /\ noLeadingDot false s = true) ->
    replaceDotSegment atStart s = s.
Proof.
  induction s as [|c s IH]; intros atStart Hclean.
  - now destruct atStart.
  - cbn [replaceDotSegment].
    assert (Hhead : (if atStart then dotsThenBoundary false (String c s) else None) = None).
    { destruct atStart; [|reflexivity].
      destruct Hclean as [H | [H _]]; [now apply dotsThenBoundary_no_dot | discriminate H]. }
    rewrite Hhead.
    assert (Hrest : noLeadingDot (c =? "/")%char s = true).
    { destruct Hclean as [H | [_ H]]; cbn [noLeadingDot] in H;
        apply andb_true_iff in H; now destruct H. }
    destruct (c =? "/")%char.
    + rewrite (dotsThenBoundary_no_dot _ Hrest). f_equal. apply IH. now left.
    + f_equal. apply IH. right. now split.
Qed.

(** A path of letters, digits, [_], [.], [/] and [-] in which no component
    begins with a dot is the name it is stored under. *)
Theorem sanitizePath_keeps_clean_paths (originalPath : string) :
  allChars pathChar originalPath = true ->
  noLeadingDot true originalPath = true ->
  sanitizePath originalPath = originalPath.
Proof.
  intros Hall Hdots. unfold sanitizePath. rewrite (mapChars_clean _ Hall).
  apply replaceDotSegment_clean. now left.
Qed.

(** Only the first dot segment of a path is replaced: behind a leading
    [../] a second [../] comes through as it is. *)
Theorem sanitizePath_replaces_first_segment_only (rest : string) :
  allChars pathChar rest = true ->
  sanitizePath ("../../" ++ rest) = "_../" ++ rest.
Proof.
  intros Hall. unfold sanitizePath.
  change ("../../" ++ rest) with (String "." (String "." (String "/" (String "."
            (String "." (String "/" rest)))))).
  cbn [mapChars]. rewrite (mapChars_clean _ Hall). reflexivity.
Qed.

Lemma mapChars_append (f : ascii -> ascii) (s t : string) :
  mapChars f (s ++ t) = mapChars f s ++ mapChars f t.
Proof. induction s as [|c s IH]; cbn; [reflexivity | now rewrite IH]. Qed.

(** Paths that differ in a character outside the class only are stored
    under one name: every such character becomes [_]. *)
Theorem sanitizePath_merges_paths (before after : string) (c : ascii) :
  pathChar c = false ->
  sanitizePath (before ++ String c after) = sanitizePath (before ++ String "_" after).
Proof.
  intros Hc. unfold sanitizePath. rewrite !mapChars_append. cbn [mapChars].
  now rewrite Hc.
Qed.

End SanitizePath.

(** ** Stored sources *)

Section StoredSources.
Context (E : Env).

(** [storeSources] saves one file for each source, in the order of the
    sources and without fail, each marked as a source under the given
    quality, chain and address, and each under a name that holds nothing
    but letters, digits and the characters [_], [.], [/] and [-]. *)
Theorem sources_are_stored_under_tame_names
  (matchQuality : option MatchQuality) (chain address : string)
  (sources : list (string * string)) (st : State (World E)) :
  exists files,
    storeSources E matchQuality chain address sources st
    = (extended (List.map (fun file =>
                             FsSave (FileTarget matchQuality chain address (Some true)
                                       (fst file))
                                    (snd file))
                          files) st,
       Return tt)
    /\ List.map snd files = List.map snd sources
    /\ Forall (fun file => allChars pathChar (fst file) = true) files.
Proof.
  exists (List.map (fun source => (sanitizePath (fst source), snd source)) sources).
  rewrite storeSources_events. unfold sourceEvents. rewrite !map_map. cbn [fst snd].
  split; [reflexivity|]. split; [reflexivity|].
  apply Forall_forall. intros file Hin. apply in_map_iff in Hin.
  destruct Hin as (source & <- & _). cbn [fst]. apply sanitizePath_sound.
Qed.

End StoredSources.

(** ** More runs in the small world *)

Module MoreRuns.
Import Demo.

Lemma compare_short_bytecode_run :
  compareBytecodes (env noStrategy) (Some "ab") None "ab" "0x6060" "1" alice start
  = (start, Return noMatch).
Proof.
  apply (compare_short_bytecode (env noStrategy) "ab" None "ab" "0x6060" "1" alice start).
  cbn. lia.
Defined.

Lemma compare_trimmed_runtime_match_run :
  compareBytecodes (env noStrategy) (Some runtimeOtherTrailer) None runtimeWithTrailer
    "0x6060" "1" alice start
  = (start, Return (CompareResult.mk (Some partial) None)).
Proof.
  apply (compare_trimmed_runtime_match (env noStrategy) runtimeOtherTrailer None
           runtimeWithTrailer "0x6060" "1" alice start).
  - vm_compute. lia.
  - discriminate.
  - vm_compute. reflexivity.
Defined.

Lemma compare_trimmed_creation_prefix_run :
  compareBytecodes (env noArguments) (Some runtimeOther)
    (Some (runtimeOtherTrailer ++ "abcd")) runtimeWithTrailer runtimeWithTrailer
    "1" alice start
  = (start, Return (CompareResult.mk (Some partial) None)).
Proof.
  apply (compare_trimmed_creation_prefix (env noArguments) runtimeOther
           (Some (runtimeOtherTrailer ++ "abcd")) runtimeWithTrailer runtimeWithTrailer
           "1" alice (runtimeOtherTrailer ++ "abcd") start start Runs.gate_passed).
  - reflexivity.
  - discriminate.
  - vm_compute. reflexivity.
  - vm_compute. reflexivity.
Defined.

Lemma gate_passed_short (sc : Scenario) : reachesCreationData (env sc) "0x6001" "0x6002".
Proof.
  unfold reachesCreationData.
  repeat split; vm_compute; first [lia | discriminate | reflexivity].
Defined.

(** The empty string scraping comes back with is "no match". *)
Lemma compare_creation_mismatch_run :
  snd (compareBytecodes (env emptyScrape) (Some "0x6001") None "0x6002" "0x6060" "1" alice
         start)
  = Return noMatch.
Proof.
  rewrite (compare_creation_mismatch (env emptyScrape) "0x6001" None (Some "")
             "0x6002" "0x6060" "1" alice start
             (fst (getCreationData (env emptyScrape) "1" alice start))
             (gate_passed_short emptyScrape)).
  - reflexivity.
  - vm_compute. reflexivity.
  - left. reflexivity.
Defined.

Lemma compare_arguments_only_when_perfect_run :
  CompareResult.status (CompareResult.mk (Some perfect) (Some "0xabcd")) = Some perfect
  /\ startsWith "0xabcd" "0x" = true.
Proof.
  apply (compare_arguments_only_when_perfect (env noArguments) (Some runtimeOther)
           (Some "0x6060abcd") runtimeWithTrailer "0x6060" "1" alice start start
           (CompareResult.mk (Some perfect) (Some "0xabcd"))).
  - vm_compute. reflexivity.
  - reflexivity.
Defined.

Lemma compare_with_creation_data_is_pure_run :
  exists result,
    compareBytecodes (env noStrategy) (Some "0x6001") (Some "0xdead") "0x6002" "0x6060"
      "1" alice start
    = (start, Return result).
Proof.
  apply (compare_with_creation_data_is_pure (env noStrategy) (Some "0x6001") "0xdead"
           "0x6002" "0x6060" "1" alice start).
  discriminate.
Defined.

Lemma compare_fails_only_in_resolver_run :
  snd (getCreationData (env noStrategy) "1" alice start) = Throw "Cannot fetch creation data".
Proof.
  destruct (compare_fails_only_in_resolver (env noStrategy) (Some "0x6001") None
              "0x6002" "0x6060" "1" alice start
              (fst (getCreationData (env noStrategy) "1" alice start))
              "Cannot fetch creation data")
    as (_ & _ & Hresolver).
  - vm_compute. reflexivity.
  - now rewrite Hresolver.
Defined.

Lemma resolver_attempts_in_order_once_run :
  exists evs tried rest,
    trace (fst (getCreationData (env archiveDelivers) "1" alice start)) = ([] ++ evs)%list
    /\ configuredStrategies equipped alice = (tried ++ rest)%list
    /\ filter isStrategyCall evs = List.map (requestOf alice) tried.
Proof.
  apply (resolver_attempts_in_order_once (env archiveDelivers) "1" alice equipped start
           (fst (getCreationData (env archiveDelivers) "1" alice start))
           (snd (getCreationData (env archiveDelivers) "1" alice start))).
  - reflexivity.
  - apply surjective_pairing.
Defined.

Lemma resolver_requests_only_what_is_configured_run :
  exists evs,
    trace (fst (getCreationData (env noStrategy) "1" alice start)) = ([] ++ evs)%list
    /\ Forall (fun ev => resolverEvent bare ev = true) evs.
Proof.
  apply (resolver_requests_only_what_is_configured (env noStrategy) "1" alice bare start
           (fst (getCreationData (env noStrategy) "1" alice start))
           (snd (getCreationData (env noStrategy) "1" alice start))).
  - reflexivity.
  - apply surjective_pairing.
Defined.

Lemma unknown_chain_fails_at_once_run :
  (exists err, getCreationData (env archiveDelivers) "5" alice start = (start, Throw err))
  /\ (exists err, matchBytecodeToAddress (env archiveDelivers) "5" [alice] "0x6002" "0x6060"
                    start
                  = (start, Throw err)).
Proof.
  apply (unknown_chain_fails_at_once (env archiveDelivers) "5" alice [alice] "0x6002"
           "0x6060" start).
  reflexivity.
Defined.

Lemma no_candidate_matches_run :
  matchBytecodeToAddress (env bobMatches) "1" [alice; carol] runtimeWithTrailer "0x6060" start
  = (mkState tt
       [retrievalLog "1" alice; CallGetBytecode "https://rpc.example" alice;
        retrievalLog "1" carol; CallGetBytecode "https://rpc.example" carol],
     Return (Match.mk None None None None)).
Proof.
  apply (no_candidate_matches (env bobMatches) "1" bare [alice; carol] runtimeWithTrailer
           "0x6060" start _ eq_refl).
  - discriminate.
  - eapply Unmatched_cons;
      [reflexivity | reflexivity | cbv; reflexivity | reflexivity |].
    eapply Unmatched_cons;
      [reflexivity | reflexivity | cbv; reflexivity | reflexivity | apply Unmatched_nil].
Defined.

Lemma invalid_candidate_aborts_run :
  matchBytecodeToAddress (env bobMatches) "1" [alice; "nonsense"; bob] runtimeWithTrailer
    "0x6060" start
  = (mkState tt [retrievalLog "1" alice; CallGetBytecode "https://rpc.example" alice],
     Throw "Given address nonsense is not a valid Ethereum address.").
Proof.
  apply (invalid_candidate_aborts (env bobMatches) "1" bare runtimeWithTrailer "0x6060"
           [alice] "nonsense" [bob] start _ _ eq_refl).
  - eapply Unmatched_cons;
      [reflexivity | reflexivity | cbv; reflexivity | reflexivity | apply Unmatched_nil].
  - reflexivity.
Defined.

Lemma unreadable_code_is_unavailable_run :
  matchBytecodeToAddress (env nodeDown) "1" [alice] runtimeWithTrailer "0x6060" start
  = (mkState tt [retrievalLog "1" alice; CallGetBytecode "https://rpc.example" alice],
     Return (Match.mk None None None
               (Some "Ethereum Mainnet is temporarily unavailable."))).
Proof.
  apply (unreadable_code_is_unavailable (env nodeDown) "1" bare alice alice
           runtimeWithTrailer "0x6060" start tt "connection refused");
    reflexivity.
Defined.

Lemma match_is_well_formed_run :
  let m := Match.mk (Some bob) (Some perfect) None None in
  (Match.status m = None <-> Match.address m = None)
  /\ (forall address, Match.address m = Some address ->
        exists candidate, In candidate [alice; bob; carol]
                          /\ toChecksumAddress candidate = Return address)
  /\ (Match.message m <> None -> Match.status m = None)
  /\ (forall args, Match.encodedConstructorArgs m = Some args ->
        Match.status m = Some perfect /\ startsWith args "0x" = true).
Proof.
  apply (match_is_well_formed (env bobMatches) "1" [alice; bob; carol] runtimeWithTrailer
           "0x6060" start
           (fst (matchBytecodeToAddress (env bobMatches) "1" [alice; bob; carol]
                   runtimeWithTrailer "0x6060" start))
           (Match.mk (Some bob) (Some perfect) None None)).
  vm_compute. reflexivity.
Defined.

Lemma search_stores_nothing_run :
  exists evs,
    trace (fst (matchBytecodeToAddress (env allFail) "1" [alice] "0x6002" "0x6060" start))
    = ([] ++ evs)%list
    /\ Forall (fun ev => searchEvent ev = true) evs.
Proof.
  apply (search_stores_nothing (env allFail) "1" [alice] "0x6002" "0x6060" start _
           (snd (matchBytecodeToAddress (env allFail) "1" [alice] "0x6002" "0x6060" start))).
  apply surjective_pairing.
Defined.

Lemma inject_returns_only_matches_run :
  truthy (Some bob) = true /\ Some perfect <> None.
Proof.
  apply (inject_returns_only_matches (env bobMatches) twoCandidates start
           (fst (inject (env bobMatches) twoCandidates start))
           (Match.mk (Some bob) (Some perfect) None None)).
  vm_compute. reflexivity.
Defined.

Lemma inject_error_stores_nothing_run :
  exists evs,
    trace (fst (inject (env nothingDeployed) soleCandidate start)) = ([] ++ evs)%list
    /\ Forall (fun ev => isFileService ev = false) evs.
Proof.
  apply (inject_error_stores_nothing (env nothingDeployed) soleCandidate start
           (fst (inject (env nothingDeployed) soleCandidate start))
           "Contract name: A. Ethereum Mainnet does not have a contract deployed at 0x1111111111111111111111111111111111111111.").
  vm_compute. reflexivity.
Defined.

Lemma inject_reports_unmatched_run :
  snd (inject (env nothingDeployed) soleCandidate start)
  = Throw "Contract name: A. Ethereum Mainnet does not have a contract deployed at 0x1111111111111111111111111111111111111111.".
Proof.
  rewrite (inject_reports_unmatched (env nothingDeployed) soleCandidate contract
             (artifact runtimeWithTrailer)
             (Match.mk None None None
                (Some "Ethereum Mainnet does not have a contract deployed at 0x1111111111111111111111111111111111111111."))
             start (fst (obtainMatch (env nothingDeployed) soleCandidate start))).
  - reflexivity.
  - vm_compute. reflexivity.
  - reflexivity.
Defined.

Lemma inject_rejects_missing_addresses_run :
  inject (env bobMatches) (mkInput (Some "1") [Some alice; None] contract None None) start
  = (start, Throw "Missing address for submitted sources/metadata").
Proof.
  apply (inject_rejects_missing_addresses (env bobMatches)
           (mkInput (Some "1") [Some alice; None] contract None None) start).
  right. right. now left.
Defined.

Lemma inject_rejects_missing_chain_run :
  inject (env bobMatches) (mkInput None [Some alice] contract None None) start
  = (start, Throw "Missing chain name for submitted sources/metadata").
Proof.
  apply (inject_rejects_missing_chain (env bobMatches)
           (mkInput None [Some alice] contract None None) start).
  - discriminate.
  - intros [H|[]]. discriminate H.
  - reflexivity.
Defined.

Lemma prepared_run (sc : Scenario) (inputData : InputData) :
  inputAddresses inputData <> [] -> ~ In None (inputAddresses inputData) ->
  truthy (inputChain inputData) = true ->
  prepared (env sc) inputData start (mkState tt [CallRecompile]) (inputContract inputData)
    (compiled sc).
Proof.
  intros Hne Hnull Hchain. repeat split; try assumption.
  exists start. split; reflexivity.
Defined.

Lemma inject_compiler_error_run :
  inject (env compilerFails) soleCandidate start
  = (mkState tt [CallRecompile], Throw "Compilation failed").
Proof.
  apply (inject_compiler_error (env compilerFails) soleCandidate start
           (mkState tt [CallRecompile]) contract "Compilation failed").
  apply (prepared_run compilerFails soleCandidate).
  - discriminate.
  - intros [H|[]]. discriminate H.
  - reflexivity.
Defined.

Lemma inject_bytecode_needs_one_address_run :
  snd (inject (env noArguments) (withBytecode [Some alice; Some bob]) start)
  = Throw "Injector cannot work with multiple addresses if bytecode is provided".
Proof.
  rewrite (inject_bytecode_needs_one_address (env noArguments)
             (withBytecode [Some alice; Some bob]) start (mkState tt [CallRecompile])
             contract (artifact runtimeWithTrailer)).
  - reflexivity.
  - apply (prepared_run noArguments (withBytecode [Some alice; Some bob])).
    + discriminate.
    + intros [H|[H|[]]]; discriminate H.
    + reflexivity.
  - reflexivity.
  - discriminate.
Defined.

Lemma inject_with_bytecode_reads_no_code_run :
  exists evs,
    trace (fst (inject (env noArguments) (withBytecode [Some alice]) start))
    = ([] ++ evs)%list
    /\ Forall (fun ev => isGetBytecode ev = false) evs.
Proof.
  apply (inject_with_bytecode_reads_no_code (env noArguments) (withBytecode [Some alice])
           start _ (snd (inject (env noArguments) (withBytecode [Some alice]) start))).
  - reflexivity.
  - apply surjective_pairing.
Defined.

Lemma sanitizePath_keeps_clean_paths_run :
  sanitizePath "contracts/token/ERC20.sol" = "contracts/token/ERC20.sol".
Proof.
  apply (sanitizePath_keeps_clean_paths "contracts/token/ERC20.sol"); reflexivity.
Defined.

Lemma sanitizePath_replaces_first_segment_only_run :
  sanitizePath "../../etc/passwd" = "_../etc/passwd".
Proof.
  apply (sanitizePath_replaces_first_segment_only "etc/passwd"). reflexivity.
Defined.

Lemma sanitizePath_merges_paths_run :
  sanitizePath "My Token.sol" = sanitizePath "My_Token.sol".
Proof.
  apply (sanitizePath_merges_paths "My" "Token.sol" " "). reflexivity.
Defined.

End MoreRuns.
